(** * XRAYREP report generator: the two notebooks

    A shallow embedding of
      - [XREPORT/data/data_validation.ipynb]   (the validation flow), and
      - [XREPORT/training/model_evaluation.ipynb] (the evaluation flow).

    A notebook is run as a script: its code cells are executed top to
    bottom and the first exception that is raised ends the run.  Every
    cell is a computation in a state-and-exception monad over the world
    the cell can touch (files, console, the [warnings] filters, numpy's
    global generator) together with a log of the library calls made.

    The classes and functions the notebooks import from [XREPORT.commons]
    and the third-party libraries are not part of the two files; they are
    the fields of the record [Library] and every statement is quantified
    over it. *)

From Stdlib Require Import List String Ascii Bool Arith ZArith Lia.
From Stdlib Require Import DecimalString DecimalNat.
From Stdlib Require Import Permutation.
Import ListNotations.
Local Open Scope string_scope.

Set Implicit Arguments.

(* ================================================================= *)
(** ** Python values *)

Module Py.

(** An exception: the class name and the message. *)
Record Exn : Type := mkExn { exn_class : string; exn_msg : string }.

Inductive Result (A : Type) : Type :=
| Ok (a : A)
| Raise (e : Exn).
Arguments Ok {A} a.
Arguments Raise {A} e.

Definition is_ok {A} (r : Result A) : bool :=
  match r with Ok _ => true | Raise _ => false end.

(** [str.isspace] on the characters below 256: TAB..CR, FS..US, the
    space, NEL and the no-break space. *)
Definition isspace (c : ascii) : bool :=
  let n := nat_of_ascii c in
  (((9 <=? n) && (n <=? 13)) || ((28 <=? n) && (n <=? 32))
   || (n =? 133) || (n =? 160))%nat.

(** The word being read is closed: nothing is produced for an empty
    one. *)
Definition flush (cur : string) (k : list string) : list string :=
  match cur with
  | EmptyString => k
  | _ => cur :: k
  end.

Definition snoc (s : string) (c : ascii) : string := s ++ String c "".

(** [s.split()] with no separator: the maximal runs of characters
    that are not whitespace, in order.  [cur] is the run being read. *)
Fixpoint split_from (cur : string) (s : string) : list string :=
  match s with
  | EmptyString => flush cur []
  | String c s' =>
      if isspace c then flush cur (split_from "" s')
      else split_from (snoc cur c) s'
  end.

Definition str_split (s : string) : list string := split_from "" s.

(** [str(n)] for a non-negative [int]. *)
Definition str_of_nat (n : nat) : string :=
  NilZero.string_of_uint (Nat.to_uint n).

(** The line feed of a string literal. *)
Definition LF : string := String "010"%char EmptyString.

(** [', '.join(l)] *)
Fixpoint join_comma (l : list string) : string :=
  match l with
  | [] => ""
  | [x] => x
  | x :: l' => x ++ ", " ++ join_comma l'
  end.

(** [repr] of a tuple of non-negative ints: [()], [(3,)], [(3, 4)]. *)
Definition tuple_repr (t : list nat) : string :=
  match t with
  | [] => "()"
  | [x] => "(" ++ str_of_nat x ++ ",)"
  | _ => "(" ++ join_comma (map str_of_nat t) ++ ")"
  end.

(** [posixpath.join a b] *)
Definition endswith_slash (a : string) : bool :=
  match String.get (String.length a - 1) a with
  | Some c => Ascii.eqb c "/"
  | None => false
  end.

Definition os_path_join (a b : string) : string :=
  match b with
  | String "/" _ => b
  | _ =>
      match a with
      | EmptyString => b
      | _ => if endswith_slash a then a ++ b else a ++ "/" ++ b
      end
  end.

End Py.
Import Py.

(* ================================================================= *)
(** ** pandas data frames *)

Module Pandas.

(** A cell of a frame read by [read_csv]: text, an integer, or the
    float NaN that stands for a missing field. *)
Inductive Cell : Type :=
| CStr (s : string)
| CInt (z : Z)
| CNaN.

(** A row keeps its index label; [sample] and [take] do not relabel. *)
Record Row : Type := mkRow { label : nat; cells : list Cell }.

Record DataFrame : Type := mkFrame { columns : list string; rows : list Row }.

(** [df.shape[0]] *)
Definition shape0 (df : DataFrame) : nat := List.length (rows df).

Fixpoint index_of (name : string) (cols : list string) : option nat :=
  match cols with
  | [] => None
  | c :: cols' =>
      if String.eqb c name then Some 0
      else option_map S (index_of name cols')
  end.

(** The cell of a row at a column position; a short row reads NaN, as
    [read_csv] pads it. *)
Definition cell_at (pos : nat) (r : Row) : Cell := nth pos (cells r) CNaN.

(** [df[name].to_list()] *)
Definition getitem (df : DataFrame) (name : string) : Result (list Cell) :=
  match index_of name (columns df) with
  | Some pos => Ok (map (cell_at pos) (rows df))
  | None => Raise (mkExn "KeyError" name)
  end.

(** [df.take(locs)]: the rows at the given positions, in that order. *)
Fixpoint take_rows (rs : list Row) (locs : list nat) : Result (list Row) :=
  match locs with
  | [] => Ok []
  | i :: locs' =>
      match nth_error rs i with
      | None => Raise (mkExn "IndexError" "indices are out-of-bounds")
      | Some r =>
          match take_rows rs locs' with
          | Ok out => Ok (r :: out)
          | Raise e => Raise e
          end
      end
  end.

Definition take (df : DataFrame) (locs : list nat) : Result DataFrame :=
  match take_rows (rows df) locs with
  | Ok rs => Ok (mkFrame (columns df) rs)
  | Raise e => Raise e
  end.

(** [x.split()] for a cell [x]: only a [str] has the method. *)
Definition split_method (x : Cell) : Result (list string) :=
  match x with
  | CStr s => Ok (str_split s)
  | CInt _ =>
      Raise (mkExn "AttributeError" "'int' object has no attribute 'split'")
  | CNaN =>
      Raise (mkExn "AttributeError" "'float' object has no attribute 'split'")
  end.

(** [[f(x) for x in l]], left to right; the first exception ends it. *)
Fixpoint comprehension {A B} (f : A -> Result B) (l : list A)
  : Result (list B) :=
  match l with
  | [] => Ok []
  | x :: l' =>
      match f x with
      | Raise e => Raise e
      | Ok y =>
          match comprehension f l' with
          | Ok ys => Ok (y :: ys)
          | Raise e => Raise e
          end
      end
  end.

(** The seeds [numpy.random.RandomState] accepts. *)
Definition seed_in_range (s : Z) : bool :=
  ((0 <=? s) && (s <? 4294967296))%Z.

Definition seed_refused : Exn :=
  mkExn "ValueError" "Seed must be between 0 and 2**32 - 1".

Definition empty_population_refused : Exn :=
  mkExn "ValueError" "a must be greater than 0 unless no samples are taken".

Definition larger_sample_refused : Exn :=
  mkExn "ValueError"
    "Cannot take a larger sample than population when 'replace=False'".

(** [choice(a, size=n, replace=False)] refuses an empty population
    when a sample is asked for, then a sample larger than the
    population. *)
Definition population_refusal (a n : nat) : option Exn :=
  if ((a =? 0) && negb (n =? 0))%nat then Some empty_population_refused
  else if (a <? n)%nat then Some larger_sample_refused
  else None.

(** What [sample] raises before anything is drawn, if it does: the
    generator is made first, from the seed when there is one. *)
Definition sample_refusal (a n : nat) (random_state : option Z)
  : option Exn :=
  match random_state with
  | Some s =>
      if seed_in_range s then population_refusal a n else Some seed_refused
  | None => population_refusal a n
  end.

End Pandas.
Import Pandas.

(* ================================================================= *)
(** ** The world of a run and the imported names *)

(** What [print] was handed: a string or a list of strings. *)
Inductive Printed : Type :=
| PStr (s : string)
| PList (l : list string).

(** The state a cell can touch.  [files] maps a path to the contents of
    the file there; [console] holds the printed objects, oldest first;
    [filters] is the filter list of the [warnings] module; [np_random]
    is numpy's global generator, of the library's type [G]. *)
Record World (G : Type) : Type := mkWorld {
  files : string -> option string;
  console : list Printed;
  filters : list (string * string);
  np_random : G
}.
Arguments mkWorld {G}.

Definition echo {G} (o : Printed) (w : World G) : World G :=
  mkWorld (files w) (console w ++ [o])%list (filters w) (np_random w).

Definition set_filters {G} (fs : list (string * string)) (w : World G)
  : World G :=
  mkWorld (files w) (console w) fs (np_random w).

Definition set_np_random {G} (g : G) (w : World G) : World G :=
  mkWorld (files w) (console w) (filters w) g.

(** Two worlds with the same files. *)
Definition same_files {G} (w w' : World G) : Prop :=
  forall p, files w' p = files w p.

(** A library call: it returns or raises, and leaves a world. *)
Definition Ext (W A : Type) : Type := W -> Result A * W.

(** Modelled from the spec: the parameters record that
    [Inference.load_pretrained_model] returns next to the model (the
    class [Inference] is defined outside the notebooks).  The spec calls it
    the hyperparameters used at training time, with a batch size and an
    epoch count. *)
Record Parameters : Type := mkParameters {
  param_batch_size : nat;
  param_epochs : nat
}.

(** [XREPORT.commons.configurations], read as [cnf]: the attributes the
    two notebooks read.  The validation notebook reads [cnf.SEED], the
    evaluation notebook [cnf.seed]; they are two attributes.  Counts and
    sizes are natural numbers. *)
Record configurations : Type := mkConfigurations {
  TRAIN_SAMPLES : nat;
  TEST_SAMPLES : nat;
  SEED : Z;
  seed : Z;
  IMG_SHAPE : list nat;
  IMG_AUGMENT : bool;
  BATCH_SIZE : nat;
  EPOCHS : nat;
  ML_DEVICE : string
}.

(** [XREPORT.commons.pathfinder] *)
Record pathfinder : Type := mkPathfinder {
  IMG_DATA_PATH : string;
  DATA_PATH : string;
  CHECKPOINT_PATH : string
}.

(** The names the notebooks import and do not define.  A method of an
    object that may change the object returns the object next to its
    result. *)
Record Library : Type := mkLibrary {
  (* numpy *)
  RngState : Type;
  RandomState : Z -> RngState;
  choice : RngState -> nat -> nat -> list nat * RngState;
  (* pandas: the parser behind read_csv (encoding, sep, low_memory, bytes) *)
  csv_parse : string -> string -> bool -> string -> Result DataFrame;
  (* XREPORT.commons.utils.preprocessing *)
  find_images_path : string -> DataFrame -> Ext (World RngState) DataFrame;
  (* XREPORT.commons.utils.validation *)
  DataValidation : Type;
  DataValidation_init : Ext (World RngState) DataValidation;
  (* XREPORT.commons.utils.models *)
  Model : Type;
  Inference : Type;
  Inference_init : Z -> Ext (World RngState) Inference;
  load_pretrained_model :
    Inference -> string -> Ext (World RngState) (Inference * (Model * Parameters));
  folder_path : Inference -> string;
  summary : Model -> Ext (World RngState) unit;
  ModelTraining : Type;
  ModelTraining_init : string -> Z -> Ext (World RngState) ModelTraining;
  (* XREPORT.commons.utils.generators *)
  DataGenerator : Type;
  DataGenerator_init :
    DataFrame -> nat -> list nat -> bool -> bool ->
    Ext (World RngState) DataGenerator;
  TensorDataSet : Type;
  TfDataset : Type;
  TensorDataSet_init : Ext (World RngState) TensorDataSet;
  create_tf_dataset :
    TensorDataSet -> DataGenerator ->
    Ext (World RngState) (TensorDataSet * TfDataset)
}.

(* ================================================================= *)
(** ** The log of calls and the monad of a cell *)

(** The call sites of the two notebooks. *)
Inductive Callee : Type :=
| c_simplefilter
| c_read_csv (path encoding sep : string)
| c_find_images_path
| c_sample
| c_getitem (name : string)
| c_print
| c_DataValidation
| c_Inference
| c_load_pretrained_model
| c_summary
| c_ModelTraining
| c_DataGenerator
| c_TensorDataSet
| c_create_tf_dataset.

(** One call and, when it raised, what it raised. *)
Record Event : Type := mkEvent { callee : Callee; raised : option Exn }.

Definition outcome {A} (r : Result A) : option Exn :=
  match r with Ok _ => None | Raise e => Some e end.

Definition is_read_csv (ev : Event) : bool :=
  match callee ev with c_read_csv _ _ _ => true | _ => false end.

Definition csv_reads (l : list Event) : list Event := filter is_read_csv l.

Record State (W : Type) : Type := mkState { world : W; log : list Event }.
Arguments mkState {W}.

Definition M (W A : Type) : Type := State W -> Result A * State W.

Definition ret {W A} (a : A) : M W A := fun st => (Ok a, st).

Definition bind {W A B} (m : M W A) (k : A -> M W B) : M W B :=
  fun st =>
    match m st with
    | (Ok a, st') => k a st'
    | (Raise e, st') => (Raise e, st')
    end.

Definition raise {W A} (e : Exn) : M W A := fun st => (Raise e, st).

(** A call of a library function from a cell: it runs on the world and
    is logged with its outcome. *)
Definition call {W A} (c : Callee) (f : Ext W A) : M W A :=
  fun st =>
    let (r, w') := f (world st) in
    (r, mkState w' (log st ++ [mkEvent c (outcome r)])%list).

(** A Python-level operation that touches nothing. *)
Definition lift {W A} (r : Result A) : M W A :=
  match r with Ok a => ret a | Raise e => raise e end.

Declare Scope cell_scope.
Delimit Scope cell_scope with cell.
Notation "x <- m ;; k" := (bind m (fun x => k))
  (at level 61, m at next level, right associativity) : cell_scope.
Notation "' p <- m ;; k" := (bind m (fun x => match x with p => k end))
  (at level 61, p pattern, m at next level, right associativity) : cell_scope.
Notation "m ;;; k" := (bind m (fun _ => k))
  (at level 61, right associativity) : cell_scope.

(** A run from a world, with an empty log. *)
Definition run {W A} (m : M W A) (w : W) : Result A * State W :=
  m (mkState w []).

(* ================================================================= *)
(** ** Library calls shared by the two notebooks *)

Section Calls.

Variable lib : Library.

Let W : Type := World (RngState lib).

(** [warnings.simplefilter(action, category=...)]: the filter goes to
    the front of the list, an equal older entry is dropped. *)
Definition same_filter (a b : string * string) : bool :=
  String.eqb (fst a) (fst b) && String.eqb (snd a) (snd b).

Definition warnings_simplefilter (action category : string) : M W unit :=
  call c_simplefilter
    (fun w =>
       let f := (action, category) in
       (Ok tt,
        set_filters (f :: filter (fun g => negb (same_filter f g)) (filters w)) w)).

(** [print(o)] *)
Definition print (o : Printed) : M W unit :=
  call c_print (fun w => (Ok tt, echo o w)).

(** [pd.read_csv(path, encoding=..., sep=..., low_memory=...)]: the
    file must be there, and the parser may refuse its bytes. *)
Definition pd_read_csv (path encoding sep : string) (low_memory : bool)
  : M W DataFrame :=
  call (c_read_csv path encoding sep)
    (fun w =>
       match files w path with
       | None => (Raise (mkExn "FileNotFoundError" path), w)
       | Some bytes => (csv_parse lib encoding sep low_memory bytes, w)
       end).

(** [df.sample(n=n, random_state=random_state)], without replacement.
    What refuses the draw is checked in this order: an integer
    [random_state] outside [0 .. 2**32 - 1] cannot seed a generator;
    nothing can be drawn from an empty frame unless no sample is asked
    for; a sample larger than the frame cannot be drawn.  An integer
    [random_state] seeds a generator of its own, [None] draws from
    numpy's global one and advances it. *)
Definition DataFrame_sample (df : DataFrame) (n : nat)
  (random_state : option Z) : M W DataFrame :=
  call c_sample
    (fun w =>
       match sample_refusal (shape0 df) n random_state with
       | Some e => (Raise e, w)
       | None =>
           match random_state with
           | Some s =>
               (take df (fst (choice lib (RandomState lib s) (shape0 df) n)), w)
           | None =>
               let (locs, g) := choice lib (np_random w) (shape0 df) n in
               (take df locs, set_np_random g w)
           end
       end).

(** [df[name].to_list()] *)
Definition to_list (df : DataFrame) (name : string) : M W (list Cell) :=
  call (c_getitem name) (fun w => (getitem df name, w)).

End Calls.

(* ================================================================= *)
(** ** XREPORT/data/data_validation.ipynb *)

Module data_validation.

Section Notebook.

Variable lib : Library.
Variable pf : pathfinder.
Variable cnf : configurations.

Let W : Type := World (RngState lib).

Local Open Scope cell_scope.

(** The first code cell: the imports bind the names of [Library]; the
    one statement that runs is the warnings filter. *)
Definition cell_imports : M W unit :=
  warnings_simplefilter lib "ignore" "Warning".

(** The names a completed run leaves bound. *)
Record Namespace : Type := mkNamespace {
  file_loc : string;
  dataset : DataFrame;
  total_samples : nat;
  subset : DataFrame;
  total_text : list Cell;
  words_list : list string;
  validator : DataValidation lib
}.

(** Cell [Load data], first half: load data from csv, add paths to
    images. *)
Definition load_dataset : M W (string * DataFrame) :=
  let file_loc := os_path_join (DATA_PATH pf) "XREP_dataset.csv" in
  dataset <- pd_read_csv lib file_loc "utf-8" ";" false ;;
  dataset <- call c_find_images_path
               (find_images_path lib (IMG_DATA_PATH pf) dataset) ;;
  ret (file_loc, dataset).

(** Cell [Load data], second half: select subset of data. *)
Definition select_subset (dataset : DataFrame) : M W (nat * DataFrame) :=
  let total_samples := TRAIN_SAMPLES cnf + TEST_SAMPLES cnf in
  subset <- DataFrame_sample lib dataset total_samples (Some (SEED cnf)) ;;
  ret (total_samples, subset).

(** Cell [1.1 Text analysis] *)
Definition text_analysis (dataset : DataFrame)
  : M W (list Cell * list string) :=
  total_text <- to_list lib dataset "text" ;;
  words_list <- lift (comprehension split_method total_text) ;;
  let words_list := List.concat words_list in
  print lib (PList words_list) ;;;
  ret (total_text, words_list).

(** The message of cell [2.1]: the f-string with [cnf.IMG_SHAPE[:-1]]. *)
Definition loading_message : string :=
  LF ++ "Loading pictures from train and test dataset. Current picture shape is "
     ++ tuple_repr (removelast (IMG_SHAPE cnf)) ++ LF.

(** Cell [2.1 Pixel intensity histogram]: what is not commented out. *)
Definition pixel_intensity_histogram : M W (DataValidation lib) :=
  validator <- call c_DataValidation (DataValidation_init lib) ;;
  print lib (PStr loading_message) ;;;
  ret validator.

(** The cells after the data frame is loaded. *)
Definition after_load (fd : string * DataFrame) : M W Namespace :=
  let (file_loc, dataset) := fd in
  ' (total_samples, subset) <- select_subset dataset ;;
  ' (total_text, words_list) <- text_analysis dataset ;;
  validator <- pixel_intensity_histogram ;;
  ret (mkNamespace file_loc dataset total_samples subset
         total_text words_list validator).

(** The notebook, top to bottom. *)
Definition notebook : M W Namespace :=
  cell_imports ;;;
  fd <- load_dataset ;;
  after_load fd.

End Notebook.

End data_validation.

(* ================================================================= *)
(** ** XREPORT/training/model_evaluation.ipynb *)

Module model_evaluation.

Section Notebook.

Variable lib : Library.
Variable pf : pathfinder.
Variable cnf : configurations.

Let W : Type := World (RngState lib).

Local Open Scope cell_scope.

Definition cell_imports : M W unit :=
  warnings_simplefilter lib "ignore" "Warning".

(** The names a completed run leaves bound ([file_loc] is bound twice;
    the last binding stays). *)
Record Namespace : Type := mkNamespace {
  inference : Inference lib;
  model : Model lib;
  parameters : Parameters;
  model_path : string;
  preprocessing_path : string;
  file_loc : string;
  train_data : DataFrame;
  test_data : DataFrame;
  trainer : ModelTraining lib;
  train_generator : DataGenerator lib;
  test_generator : DataGenerator lib;
  datamaker : TensorDataSet lib;
  train_dataset : TfDataset lib;
  test_dataset : TfDataset lib;
  num_train_samples : nat;
  num_test_samples : nat
}.

(** What cell [Load data and model] binds. *)
Record Loaded : Type := mkLoaded {
  l_inference : Inference lib;
  l_model : Model lib;
  l_parameters : Parameters;
  l_model_path : string;
  l_preprocessing_path : string;
  l_file_loc : string;
  l_train_data : DataFrame;
  l_test_data : DataFrame
}.

(** Cell [Load data and model] *)
Definition load_data_and_model : M W Loaded :=
  inference <- call c_Inference (Inference_init lib (seed cnf)) ;;
  ' (inference, (model, parameters)) <-
      call c_load_pretrained_model
        (load_pretrained_model lib inference (CHECKPOINT_PATH pf)) ;;
  let model_path := folder_path lib inference in
  call c_summary (summary lib model) ;;;
  let preprocessing_path := os_path_join model_path "preprocessing" in
  let file_loc := os_path_join preprocessing_path "XREP_train.csv" in
  train_data <- pd_read_csv lib file_loc "utf-8" ";" false ;;
  let file_loc := os_path_join preprocessing_path "XREP_test.csv" in
  test_data <- pd_read_csv lib file_loc "utf-8" ";" false ;;
  ret (mkLoaded inference model parameters model_path preprocessing_path
         file_loc train_data test_data).

(** What cell [Create generator and datasets] binds. *)
Record Datasets : Type := mkDatasets {
  d_trainer : ModelTraining lib;
  d_train_generator : DataGenerator lib;
  d_test_generator : DataGenerator lib;
  d_datamaker : TensorDataSet lib;
  d_train_dataset : TfDataset lib;
  d_test_dataset : TfDataset lib
}.

(** Cell [Create generator and datasets] *)
Definition create_generator_and_datasets (train_data test_data : DataFrame)
  : M W Datasets :=
  trainer <- call c_ModelTraining
               (ModelTraining_init lib (ML_DEVICE cnf) (seed cnf)) ;;
  train_generator <-
    call c_DataGenerator
      (DataGenerator_init lib train_data (BATCH_SIZE cnf) (IMG_SHAPE cnf)
         true (IMG_AUGMENT cnf)) ;;
  test_generator <-
    call c_DataGenerator
      (DataGenerator_init lib test_data (BATCH_SIZE cnf) (IMG_SHAPE cnf)
         true (IMG_AUGMENT cnf)) ;;
  datamaker <- call c_TensorDataSet (TensorDataSet_init lib) ;;
  ' (datamaker, train_dataset) <-
      call c_create_tf_dataset (create_tf_dataset lib datamaker train_generator) ;;
  ' (datamaker, test_dataset) <-
      call c_create_tf_dataset (create_tf_dataset lib datamaker test_generator) ;;
  ret (mkDatasets trainer train_generator test_generator datamaker
         train_dataset test_dataset).

(** The rule of the report: 79 dashes. *)
Definition rule : string :=
  "-------------------------------------------------------------------------------".

(** The f-string of cell [Model evaluation]. *)
Definition evaluation_report (num_train_samples num_test_samples : nat)
  : string :=
  LF ++ rule ++ LF
  ++ "XRAYREP evaluation report" ++ LF
  ++ rule ++ LF
  ++ "Number of train samples: " ++ str_of_nat num_train_samples ++ LF
  ++ "Number of test samples:  " ++ str_of_nat num_test_samples ++ LF
  ++ rule ++ LF
  ++ "Batch size:              " ++ str_of_nat (BATCH_SIZE cnf) ++ LF
  ++ "Epochs:                  " ++ str_of_nat (EPOCHS cnf) ++ LF
  ++ rule ++ LF.

(** Cell [Model evaluation] *)
Definition model_evaluation_cell (train_data test_data : DataFrame)
  : M W (nat * nat) :=
  let num_train_samples := shape0 train_data in
  let num_test_samples := shape0 test_data in
  print lib (PStr (evaluation_report num_train_samples num_test_samples)) ;;;
  ret (num_train_samples, num_test_samples).

(** The notebook, top to bottom. *)
Definition notebook : M W Namespace :=
  cell_imports ;;;
  l <- load_data_and_model ;;
  d <- create_generator_and_datasets (l_train_data l) (l_test_data l) ;;
  ' (num_train_samples, num_test_samples) <-
      model_evaluation_cell (l_train_data l) (l_test_data l) ;;
  ret (mkNamespace (l_inference l) (l_model l) (l_parameters l)
         (l_model_path l) (l_preprocessing_path l) (l_file_loc l)
         (l_train_data l) (l_test_data l)
         (d_trainer d) (d_train_generator d) (d_test_generator d)
         (d_datamaker d) (d_train_dataset d) (d_test_dataset d)
         num_train_samples num_test_samples).

End Notebook.

End model_evaluation.

(* ================================================================= *)
(** ** Reading what a run printed *)

Module Report.

(** The pieces of a string between occurrences of a character, as
    [s.split(c)] gives them. *)
Fixpoint split_on (c : ascii) (s : string) : list string :=
  match s with
  | EmptyString => [EmptyString]
  | String a s' =>
      if Ascii.eqb a c then EmptyString :: split_on c s'
      else
        match split_on c s' with
        | l :: ls => String a l :: ls
        | [] => [String a EmptyString]
        end
  end.

Definition lines (s : string) : list string := split_on "010"%char s.

(** The rest of [s] after the prefix [p], when [s] starts with [p]. *)
Fixpoint strip_prefix (p s : string) : option string :=
  match p, s with
  | EmptyString, _ => Some s
  | String a p', String b s' =>
      if Ascii.eqb a b then strip_prefix p' s' else None
  | String _ _, EmptyString => None
  end.

(** What follows [label] on the first line that starts with it. *)
Fixpoint first_field (label : string) (ls : list string) : option string :=
  match ls with
  | [] => None
  | l :: ls' =>
      match strip_prefix label l with
      | Some rest => Some rest
      | None => first_field label ls'
      end
  end.

(** Leading blanks dropped. *)
Fixpoint lstrip (s : string) : string :=
  match s with
  | String " " s' => lstrip s'
  | _ => s
  end.

(** A decimal numeral, read whole. *)
Definition parse_nat (s : string) : option nat :=
  option_map Nat.of_uint (NilZero.uint_of_string s).

(** The number printed after [label] in a report. *)
Definition read_count (label text : string) : option nat :=
  match first_field label (lines text) with
  | Some rest => parse_nat (lstrip rest)
  | None => None
  end.

(** The object of the last [print] on a console. *)
Definition last_printed (c : list Printed) : option Printed :=
  hd_error (rev c).

(** The report a console ends with, when its last entry is a string. *)
Definition printed_report (c : list Printed) : option string :=
  match last_printed c with
  | Some (PStr s) => Some s
  | _ => None
  end.

(** The four numbers of the evaluation summary a console ends with. *)
Definition reported (label : string) (c : list Printed) : option nat :=
  match printed_report c with
  | Some text => read_count label text
  | None => None
  end.

Definition reported_train_samples := reported "Number of train samples:".
Definition reported_test_samples := reported "Number of test samples:".
Definition reported_batch_size := reported "Batch size:".
Definition reported_epochs := reported "Epochs:".

(** No line feed in a string. *)
Fixpoint nl_free (s : string) : bool :=
  match s with
  | EmptyString => true
  | String a s' => negb (Ascii.eqb a "010"%char) && nl_free s'
  end.

Definition is_digit (a : ascii) : bool :=
  ((48 <=? nat_of_ascii a) && (nat_of_ascii a <=? 57))%nat.

Fixpoint all_digits (s : string) : bool :=
  match s with
  | EmptyString => true
  | String a s' => is_digit a && all_digits s'
  end.

End Report.
Import Report.

(* ================================================================= *)
(** ** Properties of a library and of a frame that the statements use *)

(** The per-row word count of a text cell. *)
Definition word_count (c : Cell) : nat :=
  match c with
  | CStr s => List.length (str_split s)
  | _ => 0
  end.

(** The words of a text cell. *)
Definition words_of (c : Cell) : list string :=
  match c with CStr s => str_split s | _ => [] end.

Definition is_text (c : Cell) : bool :=
  match c with CStr _ => true | _ => false end.

(** Every row of the frame has a string in its ['text'] field: the
    cells of that column. *)
Definition text_fields (df : DataFrame) (texts : list Cell) : Prop :=
  getitem df "text" = Ok texts /\ forallb is_text texts = true.

(** The frame [pd.read_csv(path, encoding='utf-8', sep=';',
    low_memory=False)] gives in a world: the parse of the file there. *)
Definition loaded_from (lib : Library) (w : World (RngState lib))
  (path : string) (df : DataFrame) : Prop :=
  exists bytes,
    files w path = Some bytes /\ csv_parse lib "utf-8" ";" false bytes = Ok df.

(** What numpy promises of [choice(a, size=n, replace=False)] for
    [n <= a]: [n] positions below [a]. *)
Definition choice_in_range (lib : Library) : Prop :=
  forall g a n, n <= a ->
    List.length (fst (choice lib g a n)) = n /\
    Forall (fun i => i < a) (fst (choice lib g a n)).

(** A library call that leaves the files as they are. *)
Definition keeps_files {G A} (f : Ext (World G) A) : Prop :=
  forall w, same_files w (snd (f w)).

(** Modelled from the spec: the classes and functions imported from
    [XREPORT.commons] ([find_images_path], [DataValidation],
    [Inference], [ModelTraining], [DataGenerator], [TensorDataSet]) are
    defined outside the two notebooks; the spec has the flows write nothing
    beyond console and plot output, so each of their calls leaves the
    files as they are. *)
Record writes_nothing (lib : Library) : Prop := mkWritesNothing {
  wn_find_images_path : forall p df, keeps_files (find_images_path lib p df);
  wn_DataValidation : keeps_files (DataValidation_init lib);
  wn_Inference : forall s, keeps_files (Inference_init lib s);
  wn_load_pretrained_model :
    forall i p, keeps_files (load_pretrained_model lib i p);
  wn_summary : forall m, keeps_files (summary lib m);
  wn_ModelTraining : forall d s, keeps_files (ModelTraining_init lib d s);
  wn_DataGenerator :
    forall df b sh s a, keeps_files (DataGenerator_init lib df b sh s a);
  wn_TensorDataSet : keeps_files (TensorDataSet_init lib);
  wn_create_tf_dataset : forall t g, keeps_files (create_tf_dataset lib t g)
}.

(** The calls a log may hold when a cell only builds the validator and
    prints. *)
Definition validator_or_print (ev : Event) : bool :=
  match callee ev with
  | c_DataValidation | c_print => true
  | _ => false
  end.

(** A computation of a cell that leaves the files as they are. *)
Definition cell_keeps_files {G A} (m : M (World G) A) : Prop :=
  forall st, same_files (world st) (world (snd (m st))).


(** A call that returned. *)
Definition quiet (ev : Event) : Prop := raised ev = None.

(** A computation that hands on what its calls raise: from a log with
    no failure, either it ends with a log with no failure, or it raises
    what the last call of its log raised, the only one that failed. *)
Definition faithful {W A} (m : M W A) : Prop :=
  forall st, Forall quiet (log st) ->
    Forall quiet (log (snd (m st)))
    \/ exists l c e,
         Forall quiet l
         /\ log (snd (m st)) = (l ++ [mkEvent c (Some e)])%list
         /\ fst (m st) = Raise e.

(** The subset selection raised in a run with this log. *)
Definition sample_raised (ev : Event) : bool :=
  match callee ev, raised ev with
  | c_sample, Some _ => true
  | _, _ => false
  end.

Definition sampling_failed (l : list Event) : bool := existsb sample_raised l.

(** Two configurations that differ at most in [SEED], [TRAIN_SAMPLES]
    and [TEST_SAMPLES]. *)
Definition same_but_sampling (c1 c2 : configurations) : Prop :=
  seed c1 = seed c2 /\ IMG_SHAPE c1 = IMG_SHAPE c2 /\
  IMG_AUGMENT c1 = IMG_AUGMENT c2 /\ BATCH_SIZE c1 = BATCH_SIZE c2 /\
  EPOCHS c1 = EPOCHS c2 /\ ML_DEVICE c1 = ML_DEVICE c2.

(** What the validation flow shows after the subset is drawn: the
    names bound by the later cells, the world and the log. *)
Definition later_output {lib : Library}
  (r : Result (data_validation.Namespace lib) * State (World (RngState lib)))
  : Result (list Cell * list string * DataValidation lib)
    * State (World (RngState lib)) :=
  (match fst r with
   | Ok ns => Ok (data_validation.total_text ns,
                  data_validation.words_list ns,
                  data_validation.validator ns)
   | Raise e => Raise e
   end, snd r).

(* ================================================================= *)
(** ** A small library and world to run the notebooks on *)

Module Demo.

(** A generator that counts: the draw of [n] out of [a] starts at the
    state and walks round. *)
Definition demo_choice (g a n : nat) : list nat * nat :=
  (firstn n (map (fun i => (i + g) mod a) (seq 0 a)), S g).

(** A parser for one-character separators: the first line names the
    columns, every other line that is not empty is a row of text or
    missing cells. *)
Definition demo_cell (s : string) : Cell :=
  match s with
  | EmptyString => CNaN
  | _ => CStr s
  end.

Fixpoint demo_rows (sep : ascii) (i : nat) (ls : list string) : list Row :=
  match ls with
  | [] => []
  | EmptyString :: ls' => demo_rows sep i ls'
  | l :: ls' =>
      mkRow i (map demo_cell (split_on sep l)) :: demo_rows sep (S i) ls'
  end.

Definition demo_csv_parse (encoding sep : string) (low_memory : bool)
  (bytes : string) : Result DataFrame :=
  if negb (String.eqb encoding "utf-8") then
    Raise (mkExn "LookupError" encoding)
  else
    match sep, lines bytes with
    | String c EmptyString, header :: ls =>
        Ok (mkFrame (split_on c header) (demo_rows c 0 ls))
    | _, _ => Raise (mkExn "ParserError" sep)
    end.

(** [find_images_path] here adds a column with the folder. *)
Definition demo_find_images_path (path : string) (df : DataFrame)
  : Ext (World nat) DataFrame :=
  fun w =>
    (Ok (mkFrame (columns df ++ ["path"])%list
           (map (fun r => mkRow (label r) (cells r ++ [CStr path])%list)
              (rows df))), w).

Definition lib : Library := {|
  RngState := nat;
  RandomState := fun s => Z.to_nat (Z.abs s);
  choice := demo_choice;
  csv_parse := demo_csv_parse;
  find_images_path := demo_find_images_path;
  DataValidation := unit;
  DataValidation_init := fun w => (Ok tt, w);
  Model := unit;
  Inference := string;
  Inference_init := fun _ w => (Ok EmptyString, w);
  load_pretrained_model :=
    fun _ path w => (Ok (os_path_join path "run", (tt, mkParameters 32 10)), w);
  folder_path := fun i => i;
  summary := fun _ w => (Ok tt, echo (PStr "Model: XREPCaptioningModel") w);
  ModelTraining := unit;
  ModelTraining_init := fun _ s w => (Ok tt, set_np_random (Z.to_nat (Z.abs s)) w);
  DataGenerator := DataFrame;
  DataGenerator_init := fun df _ _ _ _ w => (Ok df, w);
  TensorDataSet := unit;
  TfDataset := nat;
  TensorDataSet_init := fun w => (Ok tt, w);
  create_tf_dataset := fun t g w => (Ok (t, shape0 g), w)
|}.

Definition pf : pathfinder := mkPathfinder "images" "data" "checkpoints".

Definition cnf : configurations :=
  mkConfigurations 2 1 2024 42 [224; 224; 1] false 16 5 "GPU".

(** Another split of the same total, with the same seed, and other
    values everywhere else. *)
Definition cnf_resplit : configurations :=
  mkConfigurations 1 2 2024 0 [64; 64; 3] true 8 100 "CPU".

(** The same but for the seed and the two sample counts. *)
Definition cnf_small : configurations :=
  mkConfigurations 1 1 7 42 [224; 224; 1] false 16 5 "GPU".

(** The same, with one more test sample asked for. *)
Definition cnf_larger : configurations :=
  mkConfigurations 2 2 2024 42 [224; 224; 1] false 16 5 "GPU".

Definition dataset_csv : string :=
  "id;text" ++ LF
  ++ "1;no acute  findings" ++ LF
  ++ "2;mild cardiomegaly" ++ LF
  ++ "3;clear lungs bilaterally" ++ LF.

Definition train_csv : string :=
  "id;text;path" ++ LF
  ++ "1;no acute findings;images/1.png" ++ LF
  ++ "3;clear lungs bilaterally;images/3.png" ++ LF.

Definition test_csv : string :=
  "id;text;path" ++ LF
  ++ "2;mild cardiomegaly;images/2.png" ++ LF.

Definition demo_files (p : string) : option string :=
  if String.eqb p "data/XREP_dataset.csv" then Some dataset_csv
  else if String.eqb p "checkpoints/run/preprocessing/XREP_train.csv"
  then Some train_csv
  else if String.eqb p "checkpoints/run/preprocessing/XREP_test.csv"
  then Some test_csv
  else None.

Definition w0 : World nat := mkWorld demo_files [] [] 7.

(** Another checkpoint, library, configuration and world: other
    types behind the names, other parameters, other files. *)
Definition lib2 : Library := {|
  RngState := nat;
  RandomState := fun s => Z.to_nat (Z.abs s);
  choice := demo_choice;
  csv_parse := demo_csv_parse;
  find_images_path := demo_find_images_path;
  DataValidation := unit;
  DataValidation_init := fun w => (Ok tt, w);
  Model := nat;
  Inference := string;
  Inference_init := fun _ w => (Ok EmptyString, w);
  load_pretrained_model :=
    fun _ path w => (Ok (os_path_join path "other", (7, mkParameters 64 20)), w);
  folder_path := fun i => i;
  summary := fun m w => (Ok tt, echo (PStr "Model: another one") w);
  ModelTraining := unit;
  ModelTraining_init := fun _ _ w => (Ok tt, w);
  DataGenerator := nat;
  DataGenerator_init := fun df b _ _ _ w => (Ok (shape0 df * b), w);
  TensorDataSet := unit;
  TfDataset := nat;
  TensorDataSet_init := fun w => (Ok tt, w);
  create_tf_dataset := fun t g w => (Ok (t, g), w)
|}.

Definition cnf2 : configurations :=
  mkConfigurations 10 5 7 8 [128; 128; 3] true 16 5 "CPU".

Definition other_train_csv : string :=
  "id;text;path" ++ LF
  ++ "8;pleural effusion;images/8.png" ++ LF
  ++ "9;normal heart size;images/9.png" ++ LF.

Definition other_test_csv : string :=
  "id;text;path" ++ LF
  ++ "5;no pneumothorax;images/5.png" ++ LF.

Definition other_files (p : string) : option string :=
  if String.eqb p "checkpoints/other/preprocessing/XREP_train.csv"
  then Some other_train_csv
  else if String.eqb p "checkpoints/other/preprocessing/XREP_test.csv"
  then Some other_test_csv
  else None.

Definition w1 : World nat := mkWorld other_files [PStr "earlier output"] [] 0.

(** A frame of three reports. *)
Definition frame : DataFrame :=
  mkFrame ["id"; "text"]
    [ mkRow 0 [CStr "1"; CStr "no acute  findings"];
      mkRow 1 [CStr "2"; CStr "mild cardiomegaly"];
      mkRow 2 [CStr "3"; CStr "clear lungs bilaterally"] ].

End Demo.

(* ================================================================= *)
(** ** Words, joins and the order of calls *)

(** No whitespace in a string. *)
Fixpoint no_space (s : string) : bool :=
  match s with
  | EmptyString => true
  | String c s' => negb (isspace c) && no_space s'
  end.

(** A word: not empty, and no whitespace in it. *)
Definition is_word (w : string) : bool :=
  match w with
  | EmptyString => false
  | _ => no_space w
  end.

(** Nothing but whitespace in a string. *)
Fixpoint all_space (s : string) : bool :=
  match s with
  | EmptyString => true
  | String c s' => isspace c && all_space s'
  end.

(** The string with its whitespace taken out. *)
Fixpoint remove_spaces (s : string) : string :=
  match s with
  | EmptyString => EmptyString
  | String c s' =>
      if isspace c then remove_spaces s' else String c (remove_spaces s')
  end.

(** [''.join(l)] *)
Definition join_all (l : list string) : string :=
  fold_right append EmptyString l.

(** [' '.join(l)] *)
Fixpoint join_blank (l : list string) : string :=
  match l with
  | [] => EmptyString
  | [x] => x
  | x :: l' => x ++ " " ++ join_blank l'
  end.

(** The string of a text cell. *)
Definition text_of (c : Cell) : string :=
  match c with CStr s => s | _ => EmptyString end.

(** What numpy promises of [choice(a, size=n, replace=False)]: no
    position twice. *)
Definition choice_distinct (lib : Library) : Prop :=
  forall g a n, NoDup (fst (choice lib g a n)).

Definition is_print (ev : Event) : bool :=
  match callee ev with c_print => true | _ => false end.

(** The call sites of the validation notebook, in the order of the
    source. *)
Definition validation_calls (pf : pathfinder) : list Callee :=
  [ c_simplefilter;
    c_read_csv (os_path_join (DATA_PATH pf) "XREP_dataset.csv") "utf-8" ";";
    c_find_images_path;
    c_sample;
    c_getitem "text";
    c_print;
    c_DataValidation;
    c_print ].

(** The call sites of the evaluation notebook, in the order of the
    source, for a checkpoint in folder [model_path]. *)
Definition evaluation_calls (model_path : string) : list Callee :=
  let preprocessing_path := os_path_join model_path "preprocessing" in
  [ c_simplefilter;
    c_Inference;
    c_load_pretrained_model;
    c_summary;
    c_read_csv (os_path_join preprocessing_path "XREP_train.csv") "utf-8" ";";
    c_read_csv (os_path_join preprocessing_path "XREP_test.csv") "utf-8" ";";
    c_ModelTraining;
    c_DataGenerator;
    c_DataGenerator;
    c_TensorDataSet;
    c_create_tf_dataset;
    c_create_tf_dataset;
    c_print ].

(** Frames to run the text analysis on: one without a ['text'] column,
    one with a missing text, one with a blank text. *)
Module Cases.

Definition frame_without_text : DataFrame :=
  mkFrame ["id"; "report"]
    [ mkRow 0 [CStr "1"; CStr "no acute findings"] ].

Definition frame_with_gap : DataFrame :=
  mkFrame ["id"; "text"]
    [ mkRow 0 [CStr "1"; CStr "no acute findings"];
      mkRow 1 [CStr "2"; CNaN];
      mkRow 2 [CStr "3"; CStr "clear lungs"] ].

Definition frame_with_blank : DataFrame :=
  mkFrame ["id"; "text"]
    [ mkRow 0 [CStr "1"; CStr "no acute  findings"];
      mkRow 1 [CStr "2"; CStr "   "];
      mkRow 2 [CStr "3"; CStr " clear lungs "] ].

(** The demo configuration with another split of the three samples,
    another channel count and other values wherever the validation
    notebook does not look. *)
Definition cnf_other : configurations :=
  mkConfigurations 1 2 2024 99 [224; 224; 3] true 8 100 "CPU".

(** A world without the dataset file. *)
Definition empty_world : World nat := mkWorld (fun _ => None) [] [] 0.

End Cases.

(* ================================================================= *)
(** ** Other checkpoints, other parsers, and the world at the reads *)

(** A library whose checkpoints hold other parameters: the same in
    everything but the parameters record that [load_pretrained_model]
    returns, which is put through [g]. *)
Definition with_parameters (g : Parameters -> Parameters) (lib : Library)
  : Library := {|
  RngState := RngState lib;
  RandomState := RandomState lib;
  choice := choice lib;
  csv_parse := csv_parse lib;
  find_images_path := find_images_path lib;
  DataValidation := DataValidation lib;
  DataValidation_init := DataValidation_init lib;
  Model := Model lib;
  Inference := Inference lib;
  Inference_init := Inference_init lib;
  load_pretrained_model :=
    fun i path w =>
      match load_pretrained_model lib i path w with
      | (Ok (i', (m, p)), w') => (Ok (i', (m, g p)), w')
      | (Raise e, w') => (Raise e, w')
      end;
  folder_path := folder_path lib;
  summary := summary lib;
  ModelTraining := ModelTraining lib;
  ModelTraining_init := ModelTraining_init lib;
  DataGenerator := DataGenerator lib;
  DataGenerator_init := DataGenerator_init lib;
  TensorDataSet := TensorDataSet lib;
  TfDataset := TfDataset lib;
  TensorDataSet_init := TensorDataSet_init lib;
  create_tf_dataset := create_tf_dataset lib
|}.

(** The names of a completed evaluation run, with the parameters put
    through [g] and every other name as it is. *)
Definition with_parameters_bound (g : Parameters -> Parameters)
  (lib : Library) (ns : model_evaluation.Namespace lib)
  : model_evaluation.Namespace (with_parameters g lib) :=
  @model_evaluation.mkNamespace (with_parameters g lib)
    (model_evaluation.inference ns) (model_evaluation.model ns)
    (g (model_evaluation.parameters ns))
    (model_evaluation.model_path ns) (model_evaluation.preprocessing_path ns)
    (model_evaluation.file_loc ns)
    (model_evaluation.train_data ns) (model_evaluation.test_data ns)
    (model_evaluation.trainer ns)
    (model_evaluation.train_generator ns) (model_evaluation.test_generator ns)
    (model_evaluation.datamaker ns)
    (model_evaluation.train_dataset ns) (model_evaluation.test_dataset ns)
    (model_evaluation.num_train_samples ns)
    (model_evaluation.num_test_samples ns).

(** The evaluation notebook up to its first [read_csv]: the first cell
    and the first four statements of cell [Load data and model].  The
    state it leaves holds the world in which the two files are read. *)
Definition before_the_reads (lib : Library) (pf : pathfinder)
  (cnf : configurations)
  : M (World (RngState lib)) (Inference lib * (Model lib * Parameters)) :=
  (model_evaluation.cell_imports lib ;;;
   inference <- call c_Inference (Inference_init lib (seed cnf)) ;;
   ' (inference, (model, parameters)) <-
       call c_load_pretrained_model
         (load_pretrained_model lib inference (CHECKPOINT_PATH pf)) ;;
   call c_summary (summary lib model) ;;;
   ret (inference, (model, parameters)))%cell.



(** A library with another parser behind [read_csv]. *)
Definition with_csv_parse
  (parse : string -> string -> bool -> string -> Result DataFrame)
  (lib : Library) : Library := {|
  RngState := RngState lib;
  RandomState := RandomState lib;
  choice := choice lib;
  csv_parse := parse;
  find_images_path := find_images_path lib;
  DataValidation := DataValidation lib;
  DataValidation_init := DataValidation_init lib;
  Model := Model lib;
  Inference := Inference lib;
  Inference_init := Inference_init lib;
  load_pretrained_model := load_pretrained_model lib;
  folder_path := folder_path lib;
  summary := summary lib;
  ModelTraining := ModelTraining lib;
  ModelTraining_init := ModelTraining_init lib;
  DataGenerator := DataGenerator lib;
  DataGenerator_init := DataGenerator_init lib;
  TensorDataSet := TensorDataSet lib;
  TfDataset := TfDataset lib;
  TensorDataSet_init := TensorDataSet_init lib;
  create_tf_dataset := create_tf_dataset lib
|}.

(** Inputs of the shape the interface names: a parser that takes only
    files with a text and a path column, and a world whose three files
    have them. *)
Module Strict.

Definition names_text_and_path (df : DataFrame) : bool :=
  existsb (String.eqb "text") (columns df)
  && existsb (String.eqb "path") (columns df).

Definition parse (encoding sep : string) (low_memory : bool)
  (bytes : string) : Result DataFrame :=
  match Demo.demo_csv_parse encoding sep low_memory bytes with
  | Ok df =>
      if names_text_and_path df then Ok df
      else Raise (mkExn "ValueError" "text and path columns expected")
  | Raise e => Raise e
  end.

Definition lib : Library := with_csv_parse parse Demo.lib.

Definition dataset_csv : string :=
  "id;text;path" ++ LF
  ++ "1;no acute  findings;" ++ LF
  ++ "2;mild cardiomegaly;" ++ LF
  ++ "3;clear lungs bilaterally;" ++ LF.

Definition strict_files (p : string) : option string :=
  if String.eqb p "data/XREP_dataset.csv" then Some dataset_csv
  else Demo.demo_files p.

Definition w0 : World nat := mkWorld strict_files [] [] 7.

(** A configuration with a seed numpy refuses. *)
Definition cnf_bad_seed : configurations :=
  mkConfigurations 2 1 (-1) 42 [224; 224; 1] false 16 5 "GPU".

End Strict.

Unset Implicit Arguments.

(* ================================================================= *)
(** ** Text analysis *)

Lemma comprehension_split (texts : list Cell) :
  forallb is_text texts = true ->
  comprehension split_method texts = Ok (map words_of texts).
Proof.
  induction texts as [|c texts IH]; simpl; intros H.
  - reflexivity.
  - apply andb_true_iff in H as [Hc Ht].
    destruct c; try discriminate Hc.
    simpl. now rewrite (IH Ht).
Qed.

Lemma sum_word_counts (texts : list Cell) :
  forallb is_text texts = true ->
  List.length (List.concat (map words_of texts))
  = list_sum (map word_count texts).
Proof.
  intros H. rewrite length_concat, map_map. f_equal.
  induction texts as [|c texts IH]; simpl in *.
  - reflexivity.
  - apply andb_true_iff in H as [Hc Ht].
    destruct c; try discriminate Hc. simpl. now rewrite (IH Ht).
Qed.

Lemma getitem_length (df : DataFrame) (name : string) (l : list Cell) :
  getitem df name = Ok l -> List.length l = shape0 df.
Proof.
  unfold getitem, shape0.
  destruct (index_of name (columns df)); intros H; inversion H.
  apply length_map.
Qed.

(** C3: for a frame whose rows all have a string in the ['text'] field,
    the text-analysis cell returns, and its flattened word list is as
    long as the sum over the rows of the per-row word counts; there is
    one text per row. *)
Theorem words_list_length_is_sum_of_row_counts
  (lib : Library) (dataset : DataFrame) (texts : list Cell)
  (st : State (World (RngState lib))) :
  text_fields dataset texts ->
  exists words st',
    data_validation.text_analysis lib dataset st = (Ok (texts, words), st')
    /\ words = List.concat (map words_of texts)
    /\ List.length texts = shape0 dataset
    /\ List.length words = list_sum (map word_count texts).
Proof.
  intros [Hget Htext].
  unfold data_validation.text_analysis, to_list, print, bind, call, lift.
  cbn. rewrite Hget. cbn.
  rewrite (comprehension_split _ Htext). cbn.
  eexists; eexists. split; [reflexivity|].
  split; [reflexivity|].
  split; [exact (getitem_length _ _ _ Hget)|].
  exact (sum_word_counts _ Htext).
Qed.

Lemma words_list_length_witness :
  exists words st',
    data_validation.text_analysis Demo.lib Demo.frame (mkState Demo.w0 [])
    = (Ok ([CStr "no acute  findings"; CStr "mild cardiomegaly";
            CStr "clear lungs bilaterally"], words), st')
    /\ words = ["no"; "acute"; "findings"; "mild"; "cardiomegaly";
                "clear"; "lungs"; "bilaterally"]
    /\ 3 = shape0 Demo.frame
    /\ List.length words = 3 + 2 + 3.
Proof.
  apply (words_list_length_is_sum_of_row_counts Demo.lib Demo.frame).
  split; reflexivity.
Defined.

(* ================================================================= *)
(** ** Reading the evaluation report back *)

Section ReportLemmas.

Local Open Scope string_scope.

Lemma lines_line (a b : string) :
  nl_free a = true -> lines (a ++ LF ++ b) = a :: lines b.
Proof.
  unfold lines, LF. simpl.
  induction a as [|x a IH]; simpl; intros H.
  - reflexivity.
  - apply andb_true_iff in H as [Hx Ha].
    apply negb_true_iff in Hx. rewrite Hx.
    now rewrite (IH Ha).
Qed.

Lemma lines_field (a v b : string) :
  nl_free a = true -> nl_free v = true ->
  lines (a ++ v ++ LF ++ b) = (a ++ v) :: lines b.
Proof.
  intros Ha Hv.
  assert (Hav : nl_free (a ++ v) = true).
  { clear b. induction a as [|x a IH]; simpl in *; [exact Hv|].
    apply andb_true_iff in Ha as [Hx Ha]. now rewrite Hx, (IH Ha). }
  rewrite <- (lines_line (a ++ v) b Hav).
  f_equal. clear. induction a as [|x a IH]; simpl; [reflexivity|].
  f_equal. exact IH.
Qed.

Lemma lines_last (a : string) :
  nl_free a = true -> lines (a ++ LF) = [a; EmptyString].
Proof.
  intros Ha.
  change (a ++ LF) with (a ++ LF ++ EmptyString).
  now rewrite (lines_line a EmptyString Ha).
Qed.

Lemma all_digits_nl_free (s : string) :
  all_digits s = true -> nl_free s = true.
Proof.
  induction s as [|a s IH]; simpl; [reflexivity|].
  intros H. apply andb_true_iff in H as [Ha Hs].
  rewrite (IH Hs), andb_true_r.
  destruct (Ascii.eqb_spec a "010"%char) as [->|]; [discriminate Ha|reflexivity].
Qed.

Lemma all_digits_lstrip (s : string) :
  all_digits s = true -> lstrip s = s.
Proof.
  destruct s as [|a s]; simpl; [reflexivity|].
  intros H. apply andb_true_iff in H as [Ha _].
  destruct a as [[] [] [] [] [] [] [] []]; try reflexivity; discriminate Ha.
Qed.

Lemma all_digits_string_of_uint (d : Decimal.uint) :
  all_digits (NilEmpty.string_of_uint d) = true.
Proof. induction d; simpl; auto. Qed.

Lemma all_digits_str_of_nat (n : nat) : all_digits (str_of_nat n) = true.
Proof.
  unfold str_of_nat, NilZero.string_of_uint.
  destruct (Nat.to_uint n) eqn:E; try reflexivity;
    rewrite <- E; apply all_digits_string_of_uint.
Qed.

Lemma parse_str_of_nat (n : nat) : parse_nat (str_of_nat n) = Some n.
Proof.
  unfold parse_nat, str_of_nat.
  assert (Hn : Nat.to_uint n <> Decimal.Nil).
  { intros E. pose proof (DecimalNat.Unsigned.of_to n) as H.
    rewrite E in H. simpl in H. subst n. discriminate E. }
  rewrite (NilZero.usu _ Hn). simpl. f_equal.
  apply DecimalNat.Unsigned.of_to.
Qed.

(** The lines of the report, with any four strings without line feed
    in the four places. *)
Lemma template_lines (a b c d : string) :
  nl_free a = true -> nl_free b = true ->
  nl_free c = true -> nl_free d = true ->
  lines (LF ++ model_evaluation.rule ++ LF
         ++ "XRAYREP evaluation report" ++ LF
         ++ model_evaluation.rule ++ LF
         ++ "Number of train samples: " ++ a ++ LF
         ++ "Number of test samples:  " ++ b ++ LF
         ++ model_evaluation.rule ++ LF
         ++ "Batch size:              " ++ c ++ LF
         ++ "Epochs:                  " ++ d ++ LF
         ++ model_evaluation.rule ++ LF)
  = [ EmptyString; model_evaluation.rule; "XRAYREP evaluation report";
      model_evaluation.rule;
      "Number of train samples: " ++ a;
      "Number of test samples:  " ++ b;
      model_evaluation.rule;
      "Batch size:              " ++ c;
      "Epochs:                  " ++ d;
      model_evaluation.rule; EmptyString ].
Proof.
  intros Ha Hb Hc Hd.
  change (LF ++ ?x) with (EmptyString ++ LF ++ x) at 1.
  rewrite lines_line by reflexivity.
  rewrite lines_line by reflexivity.
  rewrite lines_line by reflexivity.
  rewrite lines_line by reflexivity.
  rewrite lines_field by (reflexivity || assumption).
  rewrite lines_field by (reflexivity || assumption).
  rewrite lines_line by reflexivity.
  rewrite lines_field by (reflexivity || assumption).
  rewrite lines_field by (reflexivity || assumption).
  rewrite lines_last by reflexivity.
  reflexivity.
Qed.

Lemma report_lines (cnf : configurations) (n m : nat) :
  lines (model_evaluation.evaluation_report cnf n m)
  = [ EmptyString; model_evaluation.rule; "XRAYREP evaluation report";
      model_evaluation.rule;
      "Number of train samples: " ++ str_of_nat n;
      "Number of test samples:  " ++ str_of_nat m;
      model_evaluation.rule;
      "Batch size:              " ++ str_of_nat (BATCH_SIZE cnf);
      "Epochs:                  " ++ str_of_nat (EPOCHS cnf);
      model_evaluation.rule; EmptyString ].
Proof.
  unfold model_evaluation.evaluation_report.
  apply template_lines; apply all_digits_nl_free, all_digits_str_of_nat.
Qed.

(** The four numbers of the report are read back as they were put in. *)
Lemma report_fields (cnf : configurations) (n m : nat) :
  let text := model_evaluation.evaluation_report cnf n m in
  read_count "Number of train samples:" text = Some n
  /\ read_count "Number of test samples:" text = Some m
  /\ read_count "Batch size:" text = Some (BATCH_SIZE cnf)
  /\ read_count "Epochs:" text = Some (EPOCHS cnf).
Proof.
  cbv zeta. unfold read_count. rewrite report_lines.
  generalize (parse_str_of_nat n) (parse_str_of_nat m)
    (parse_str_of_nat (BATCH_SIZE cnf)) (parse_str_of_nat (EPOCHS cnf)).
  generalize (all_digits_lstrip _ (all_digits_str_of_nat n))
    (all_digits_lstrip _ (all_digits_str_of_nat m))
    (all_digits_lstrip _ (all_digits_str_of_nat (BATCH_SIZE cnf)))
    (all_digits_lstrip _ (all_digits_str_of_nat (EPOCHS cnf))).
  generalize (str_of_nat n) (str_of_nat m)
    (str_of_nat (BATCH_SIZE cnf)) (str_of_nat (EPOCHS cnf)).
  intros a b c d La Lb Lc Ld Pa Pb Pc Pd.
  cbn -[parse_nat].
  rewrite La, Lb, Lc, Ld. auto.
Qed.

End ReportLemmas.

(* ================================================================= *)
(** ** Running a cell step by step *)

(** The innermost scrutinee that does not reduce: a library call, a
    file lookup or a value it returned. *)
Ltac stuck t :=
  lazymatch t with
  | context [match _ with _ => _ end] => fail
  | _ => idtac
  end.

Ltac unfold_cells_in H :=
  cbv beta iota zeta delta
    [bind call ret raise lift run print pd_read_csv warnings_simplefilter
     to_list DataFrame_sample outcome fst snd world log
     data_validation.notebook data_validation.cell_imports
     data_validation.load_dataset data_validation.select_subset
     data_validation.text_analysis data_validation.pixel_intensity_histogram
     data_validation.after_load
     model_evaluation.notebook model_evaluation.cell_imports
     model_evaluation.load_data_and_model
     model_evaluation.create_generator_and_datasets
     model_evaluation.model_evaluation_cell] in H.

Ltac unfold_cells :=
  cbv beta iota zeta delta
    [bind call ret raise lift run print pd_read_csv warnings_simplefilter
     to_list DataFrame_sample outcome fst snd world log
     data_validation.notebook data_validation.cell_imports
     data_validation.load_dataset data_validation.select_subset
     data_validation.text_analysis data_validation.pixel_intensity_histogram
     data_validation.after_load
     model_evaluation.notebook model_evaluation.cell_imports
     model_evaluation.load_data_and_model
     model_evaluation.create_generator_and_datasets
     model_evaluation.model_evaluation_cell].

(** A run that is known to complete: every call on the way returned. *)
Ltac completes H :=
  repeat (unfold_cells_in H;
          try discriminate H;
          match type of H with
          | context [match ?t with _ => _ end] => stuck t; destruct t eqn:?
          end).

(** Any run: one case for every call that may raise. *)
Ltac any_run :=
  repeat (unfold_cells;
          match goal with
          | |- context [match ?t with _ => _ end] => stuck t; destruct t eqn:?
          end).

Lemma csv_reads_app (l l' : list Event) :
  csv_reads (l ++ l') = (csv_reads l ++ csv_reads l')%list.
Proof. apply filter_app. Qed.

(** What a completed run of the evaluation notebook leaves: the report
    is the last thing on the console, the two counts are the row counts
    of the two frames, and two files were read. *)
Lemma evaluation_completes (lib : Library) (pf : pathfinder)
  (cnf : configurations) (st : State (World (RngState lib)))
  (ns : model_evaluation.Namespace lib) (st' : State (World (RngState lib))) :
  model_evaluation.notebook lib pf cnf st = (Ok ns, st') ->
  (exists pre,
     console (world st')
     = (pre ++ [PStr (model_evaluation.evaluation_report cnf
                        (shape0 (model_evaluation.train_data ns))
                        (shape0 (model_evaluation.test_data ns)))])%list)
  /\ model_evaluation.num_train_samples ns
     = shape0 (model_evaluation.train_data ns)
  /\ model_evaluation.num_test_samples ns
     = shape0 (model_evaluation.test_data ns)
  /\ model_evaluation.preprocessing_path ns
     = os_path_join (model_evaluation.model_path ns) "preprocessing"
  /\ csv_reads (log st')
     = (csv_reads (log st)
        ++ [ mkEvent (c_read_csv
                        (os_path_join (model_evaluation.preprocessing_path ns)
                           "XREP_train.csv") "utf-8" ";") None;
             mkEvent (c_read_csv
                        (os_path_join (model_evaluation.preprocessing_path ns)
                           "XREP_test.csv") "utf-8" ";") None ])%list
  /\ (exists w,
        loaded_from lib w
          (os_path_join (model_evaluation.preprocessing_path ns)
             "XREP_train.csv") (model_evaluation.train_data ns))
  /\ (exists w,
        loaded_from lib w
          (os_path_join (model_evaluation.preprocessing_path ns)
             "XREP_test.csv") (model_evaluation.test_data ns)).
Proof.
  intros H. completes H.
  inversion H; subst; clear H. cbn.
  split; [eexists; reflexivity|].
  repeat (split; [reflexivity|]).
  split.
  { repeat rewrite csv_reads_app. cbn.
    repeat rewrite app_nil_r. rewrite <- app_assoc. reflexivity. }
  split; eexists; eexists; split; eassumption.
Qed.

Lemma printed_report_last (pre : list Printed) (text : string) :
  printed_report (pre ++ [PStr text]) = Some text.
Proof.
  unfold printed_report, last_printed. now rewrite rev_unit.
Qed.

(* ================================================================= *)
(** ** The evaluation summary *)

(** The two frames of a completed evaluation run are the parses of
    the two files in the world the notebook reached at its first read:
    the one left by the first cell, the two calls of [Inference] and
    [model.summary()]. *)
Lemma evaluation_frames_come_from_the_files (lib : Library) (pf : pathfinder)
  (cnf : configurations) (st : State (World (RngState lib)))
  (ns : model_evaluation.Namespace lib) (st' : State (World (RngState lib))) :
  model_evaluation.notebook lib pf cnf st = (Ok ns, st') ->
  exists st_r,
    before_the_reads lib pf cnf st
    = (Ok (model_evaluation.inference ns,
           (model_evaluation.model ns, model_evaluation.parameters ns)), st_r)
    /\ loaded_from lib (world st_r)
         (os_path_join
            (os_path_join (folder_path lib (model_evaluation.inference ns))
               "preprocessing") "XREP_train.csv")
         (model_evaluation.train_data ns)
    /\ loaded_from lib (world st_r)
         (os_path_join
            (os_path_join (folder_path lib (model_evaluation.inference ns))
               "preprocessing") "XREP_test.csv")
         (model_evaluation.test_data ns).
Proof.
  intros H. completes H.
  inversion H; subst; clear H.
  unfold before_the_reads. unfold_cells.
  repeat (match goal with
          | Heq : ?t = _ |- context [?t] => rewrite Heq
          end;
          cbv beta iota zeta).
  eexists. split; [reflexivity|].
  cbn [model_evaluation.inference model_evaluation.train_data
       model_evaluation.test_data world].
  split; eexists; split; eassumption.
Qed.

(** C4: when the evaluation notebook completes, the number of train
    samples read off the printed summary is the row count of the frame
    loaded from XREP_train.csv, and the number of test samples is the
    row count of the frame loaded from XREP_test.csv: the two frames
    are the parses of the files of these names, under the preprocessing
    folder of the checkpoint, in the world the run had reached when it
    read them. *)
Theorem summary_counts_are_row_counts
  (lib : Library) (pf : pathfinder) (cnf : configurations)
  (st : State (World (RngState lib)))
  (ns : model_evaluation.Namespace lib) (st' : State (World (RngState lib))) :
  model_evaluation.notebook lib pf cnf st = (Ok ns, st') ->
  reported_train_samples (console (world st'))
  = Some (shape0 (model_evaluation.train_data ns))
  /\ reported_test_samples (console (world st'))
     = Some (shape0 (model_evaluation.test_data ns))
  /\ exists st_r,
       before_the_reads lib pf cnf st
       = (Ok (model_evaluation.inference ns,
              (model_evaluation.model ns, model_evaluation.parameters ns)),
          st_r)
       /\ loaded_from lib (world st_r)
            (os_path_join
               (os_path_join (folder_path lib (model_evaluation.inference ns))
                  "preprocessing") "XREP_train.csv")
            (model_evaluation.train_data ns)
       /\ loaded_from lib (world st_r)
            (os_path_join
               (os_path_join (folder_path lib (model_evaluation.inference ns))
                  "preprocessing") "XREP_test.csv")
            (model_evaluation.test_data ns).
Proof.
  intros H.
  destruct (evaluation_completes _ _ _ _ _ _ H) as ([pre Hc] & _).
  unfold reported_train_samples, reported_test_samples, reported.
  rewrite Hc, printed_report_last.
  destruct (report_fields cnf (shape0 (model_evaluation.train_data ns))
              (shape0 (model_evaluation.test_data ns))) as (Ha & Hb & _).
  split; [exact Ha|]. split; [exact Hb|].
  exact (evaluation_frames_come_from_the_files _ _ _ _ _ _ H).
Qed.

Lemma summary_counts_witness :
  exists ns st',
    run (model_evaluation.notebook Demo.lib Demo.pf Demo.cnf) Demo.w0
    = (Ok ns, st')
    /\ shape0 (model_evaluation.train_data ns) = 2
    /\ shape0 (model_evaluation.test_data ns) = 1
    /\ reported_train_samples (console (world st')) = Some 2
    /\ reported_test_samples (console (world st')) = Some 1
    /\ exists st_r,
         before_the_reads Demo.lib Demo.pf Demo.cnf (mkState Demo.w0 [])
         = (Ok (model_evaluation.inference ns,
                (model_evaluation.model ns, model_evaluation.parameters ns)),
            st_r)
         /\ loaded_from Demo.lib (world st_r)
              "checkpoints/run/preprocessing/XREP_train.csv"
              (model_evaluation.train_data ns)
         /\ loaded_from Demo.lib (world st_r)
              "checkpoints/run/preprocessing/XREP_test.csv"
              (model_evaluation.test_data ns).
Proof.
  eexists; eexists.
  split; [vm_compute; reflexivity|].
  split; [reflexivity|]. split; [reflexivity|].
  match goal with
  | |- reported_train_samples (console (world ?s)) = _ /\ _ =>
      destruct (summary_counts_are_row_counts Demo.lib Demo.pf Demo.cnf
                  (mkState Demo.w0 []) _ s eq_refl) as (Ha & Hb & Hf)
  end.
  split; [exact Ha|]. split; [exact Hb|]. exact Hf.
Defined.

(** A completed run of the evaluation notebook with a library whose
    checkpoints hold other parameters: the same run, with the other
    parameters bound to [parameters]. *)
Lemma evaluation_with_other_parameters (lib : Library) (pf : pathfinder)
  (cnf : configurations) (st : State (World (RngState lib)))
  (ns : model_evaluation.Namespace lib) (st' : State (World (RngState lib)))
  (g : Parameters -> Parameters) :
  model_evaluation.notebook lib pf cnf st = (Ok ns, st') ->
  model_evaluation.notebook (with_parameters g lib) pf cnf st
  = (Ok (with_parameters_bound g ns), st').
Proof.
  intros H. completes H.
  inversion H; subst; clear H.
  unfold_cells.
  cbn [with_parameters RngState Inference_init load_pretrained_model
       folder_path summary csv_parse ModelTraining_init DataGenerator_init
       TensorDataSet_init create_tf_dataset
       model_evaluation.l_train_data model_evaluation.l_test_data] in *.
  repeat (match goal with
          | Heq : ?t = _ |- context [?t] => rewrite Heq
          end;
          cbn [model_evaluation.l_train_data model_evaluation.l_test_data]).
  reflexivity.
Qed.

(** C1, as the code has it: when the evaluation notebook completes, the
    batch size and the epoch count read off the printed summary are
    [cnf.BATCH_SIZE] and [cnf.EPOCHS]; and the parameters record that
    [load_pretrained_model] returned is bound and not read: with any
    other record in its place the run is the same, the same calls, the
    same world and console, the same names but for [parameters]. *)
Theorem summary_batch_and_epochs_are_configured
  (lib : Library) (pf : pathfinder) (cnf : configurations)
  (st : State (World (RngState lib)))
  (ns : model_evaluation.Namespace lib) (st' : State (World (RngState lib))) :
  model_evaluation.notebook lib pf cnf st = (Ok ns, st') ->
  reported_batch_size (console (world st')) = Some (BATCH_SIZE cnf)
  /\ reported_epochs (console (world st')) = Some (EPOCHS cnf)
  /\ forall g : Parameters -> Parameters,
       model_evaluation.notebook (with_parameters g lib) pf cnf st
       = (Ok (with_parameters_bound g ns), st').
Proof.
  intros H.
  destruct (evaluation_completes _ _ _ _ _ _ H) as ([pre Hc] & _).
  unfold reported_batch_size, reported_epochs, reported.
  rewrite Hc, printed_report_last.
  destruct (report_fields cnf (shape0 (model_evaluation.train_data ns))
              (shape0 (model_evaluation.test_data ns))) as (_ & _ & Hc' & Hd).
  split; [exact Hc'|]. split; [exact Hd|].
  intros g. now apply evaluation_with_other_parameters.
Qed.

Lemma summary_batch_and_epochs_witness :
  exists ns st',
    run (model_evaluation.notebook Demo.lib Demo.pf Demo.cnf) Demo.w0
    = (Ok ns, st')
    /\ reported_batch_size (console (world st')) = Some 16
    /\ reported_epochs (console (world st')) = Some 5
    /\ run (model_evaluation.notebook
              (with_parameters (fun _ => mkParameters 16 5) Demo.lib)
              Demo.pf Demo.cnf) Demo.w0
       = (Ok (with_parameters_bound (fun _ => mkParameters 16 5) ns),
          st').
Proof.
  eexists; eexists.
  split; [vm_compute; reflexivity|].
  match goal with
  | |- reported_batch_size (console (world ?s)) = _ /\ _ =>
      destruct (summary_batch_and_epochs_are_configured Demo.lib Demo.pf
                  Demo.cnf (mkState Demo.w0 []) _ s eq_refl)
        as (Hb & He & Hg)
  end.
  split; [exact Hb|]. split; [exact He|].
  exact (Hg (fun _ => mkParameters 16 5)).
Defined.

(** C1, as stated, fails: a checkpoint trained with batch size 32 for
    10 epochs is evaluated under a configuration with batch size 16 and
    5 epochs; the run completes and the summary shows 16 and 5. *)
Lemma summary_does_not_show_parameters :
  exists ns st',
    run (model_evaluation.notebook Demo.lib Demo.pf Demo.cnf) Demo.w0
    = (Ok ns, st')
    /\ model_evaluation.parameters ns = mkParameters 32 10
    /\ reported_batch_size (console (world st')) = Some 16
    /\ reported_epochs (console (world st')) = Some 5
    /\ reported_batch_size (console (world st'))
       <> Some (param_batch_size (model_evaluation.parameters ns))
    /\ reported_epochs (console (world st'))
       <> Some (param_epochs (model_evaluation.parameters ns)).
Proof.
  eexists; eexists.
  split; [vm_compute; reflexivity|].
  split; [reflexivity|].
  split; [vm_compute; reflexivity|].
  split; [vm_compute; reflexivity|].
  split; vm_compute; discriminate.
Qed.

Lemma evaluation_report_ext (c1 c2 : configurations) (n m : nat) :
  BATCH_SIZE c1 = BATCH_SIZE c2 -> EPOCHS c1 = EPOCHS c2 ->
  model_evaluation.evaluation_report c1 n m
  = model_evaluation.evaluation_report c2 n m.
Proof.
  intros Hb He. unfold model_evaluation.evaluation_report.
  now rewrite Hb, He.
Qed.

(** C9: two completed runs of the evaluation notebook, with any two
    libraries, path settings, configurations and starting states, whose
    two loaded frames have the same row counts and whose configurations
    agree on [BATCH_SIZE] and [EPOCHS], print the same report. *)
Theorem report_depends_on_counts_and_configuration
  (lib1 lib2 : Library) (pf1 pf2 : pathfinder) (cnf1 cnf2 : configurations)
  (st1 : State (World (RngState lib1))) (st2 : State (World (RngState lib2)))
  (ns1 : model_evaluation.Namespace lib1)
  (ns2 : model_evaluation.Namespace lib2)
  (st1' : State (World (RngState lib1)))
  (st2' : State (World (RngState lib2))) :
  model_evaluation.notebook lib1 pf1 cnf1 st1 = (Ok ns1, st1') ->
  model_evaluation.notebook lib2 pf2 cnf2 st2 = (Ok ns2, st2') ->
  shape0 (model_evaluation.train_data ns1)
  = shape0 (model_evaluation.train_data ns2) ->
  shape0 (model_evaluation.test_data ns1)
  = shape0 (model_evaluation.test_data ns2) ->
  BATCH_SIZE cnf1 = BATCH_SIZE cnf2 ->
  EPOCHS cnf1 = EPOCHS cnf2 ->
  exists text,
    printed_report (console (world st1')) = Some text
    /\ printed_report (console (world st2')) = Some text.
Proof.
  intros H1 H2 Htrain Htest Hb He.
  destruct (evaluation_completes _ _ _ _ _ _ H1) as ([pre1 Hc1] & _).
  destruct (evaluation_completes _ _ _ _ _ _ H2) as ([pre2 Hc2] & _).
  rewrite Hc1, Hc2, !printed_report_last.
  eexists. split; [reflexivity|].
  rewrite Htrain, Htest. f_equal. symmetry.
  now apply evaluation_report_ext.
Qed.

Lemma report_depends_witness :
  exists ns1 st1' ns2 st2',
    run (model_evaluation.notebook Demo.lib Demo.pf Demo.cnf) Demo.w0
    = (Ok ns1, st1')
    /\ run (model_evaluation.notebook Demo.lib2 Demo.pf Demo.cnf2) Demo.w1
       = (Ok ns2, st2')
    /\ model_evaluation.parameters ns1 <> model_evaluation.parameters ns2
    /\ exists text,
         printed_report (console (world st1')) = Some text
         /\ printed_report (console (world st2')) = Some text.
Proof.
  do 4 eexists.
  split; [vm_compute; reflexivity|].
  split; [vm_compute; reflexivity|].
  split; [discriminate|].
  eapply (report_depends_on_counts_and_configuration
            Demo.lib Demo.lib2 Demo.pf Demo.pf Demo.cnf Demo.cnf2
            (mkState Demo.w0 []) (mkState Demo.w1 []));
    reflexivity.
Defined.

(* ================================================================= *)
(** ** The subset of the validation flow *)

(** C2: on a given frame, the subset selection of two runs with the
    same [SEED] and the same sample count gives the same result, the
    same rows in the same order, whatever the two runs' states (numpy's
    global generator among them) and the rest of their configurations. *)
Theorem subset_is_fixed_by_seed_and_count
  (lib : Library) (dataset : DataFrame) (cnf1 cnf2 : configurations)
  (st1 st2 : State (World (RngState lib))) :
  SEED cnf1 = SEED cnf2 ->
  TRAIN_SAMPLES cnf1 + TEST_SAMPLES cnf1
  = TRAIN_SAMPLES cnf2 + TEST_SAMPLES cnf2 ->
  fst (data_validation.select_subset lib cnf1 dataset st1)
  = fst (data_validation.select_subset lib cnf2 dataset st2).
Proof.
  intros Hseed Hcount.
  unfold_cells. rewrite Hseed, Hcount.
  destruct (sample_refusal (shape0 dataset)
              (TRAIN_SAMPLES cnf2 + TEST_SAMPLES cnf2) (Some (SEED cnf2)));
    [reflexivity|].
  destruct (take dataset _); reflexivity.
Qed.

(** Without a seed the draw follows numpy's global generator: the two
    demo worlds give different samples of the same frame. *)
Example sample_without_seed_follows_the_global_generator :
  fst (DataFrame_sample Demo.lib Demo.frame 2 None (mkState Demo.w0 []))
  <> fst (DataFrame_sample Demo.lib Demo.frame 2 None (mkState Demo.w1 [])).
Proof. vm_compute. discriminate. Qed.

Lemma subset_is_fixed_witness :
  fst (data_validation.select_subset Demo.lib Demo.cnf Demo.frame
         (mkState Demo.w0 []))
  = fst (data_validation.select_subset Demo.lib Demo.cnf_resplit Demo.frame
           (mkState Demo.w1 [mkEvent c_print None])).
Proof.
  apply (subset_is_fixed_by_seed_and_count Demo.lib Demo.frame
           Demo.cnf Demo.cnf_resplit); reflexivity.
Defined.

Lemma take_rows_in_range (rs : list Row) (locs : list nat) :
  Forall (fun i => i < List.length rs) locs ->
  exists out,
    take_rows rs locs = Ok out
    /\ List.length out = List.length locs
    /\ Forall (fun r => In r rs) out.
Proof.
  induction 1 as [|i locs Hi _ IH]; simpl.
  - exists []. auto.
  - destruct IH as (out & -> & Hlen & Hin).
    destruct (nth_error rs i) as [r|] eqn:E.
    + exists (r :: out). simpl. repeat split; auto.
      constructor; [exact (nth_error_In _ _ E) | exact Hin].
    + apply nth_error_Some in Hi. contradiction.
Qed.

Lemma population_accepts (a n : nat) :
  n <= a -> population_refusal a n = None.
Proof.
  intros H. unfold population_refusal.
  destruct (Nat.ltb_spec a n) as [Hlt|_]; [lia|].
  destruct (Nat.eqb_spec a 0) as [Ha|Ha]; [|reflexivity].
  assert (Hn : n = 0) by lia. rewrite Hn. reflexivity.
Qed.

Lemma population_accepted (a n : nat) :
  population_refusal a n = None -> n <= a.
Proof.
  unfold population_refusal.
  destruct ((a =? 0) && negb (n =? 0))%nat; [discriminate|].
  destruct (Nat.ltb_spec a n); [discriminate | intros _; assumption].
Qed.

Lemma sample_accepted (a n : nat) (random_state : option Z) :
  sample_refusal a n random_state = None -> n <= a.
Proof.
  unfold sample_refusal. destruct random_state as [s|].
  - destruct (seed_in_range s); [apply population_accepted | discriminate].
  - apply population_accepted.
Qed.

(** C5: with a generator that keeps numpy's promise, on a frame of at
    least [TRAIN_SAMPLES + TEST_SAMPLES] rows every subset the
    selection returns has exactly that many rows, each of them a row of
    the frame, under the frame's columns.  The selection does return
    when [SEED] is a seed numpy accepts; with any other [SEED] it
    raises numpy's [ValueError] and there is no subset. *)
Theorem subset_has_the_requested_rows
  (lib : Library) (cnf : configurations) (dataset : DataFrame)
  (st : State (World (RngState lib))) :
  choice_in_range lib ->
  TRAIN_SAMPLES cnf + TEST_SAMPLES cnf <= shape0 dataset ->
  (forall total subset st',
     data_validation.select_subset lib cnf dataset st
     = (Ok (total, subset), st') ->
     total = TRAIN_SAMPLES cnf + TEST_SAMPLES cnf
     /\ shape0 subset = TRAIN_SAMPLES cnf + TEST_SAMPLES cnf
     /\ Forall (fun r => In r (rows dataset)) (rows subset)
     /\ columns subset = columns dataset)
  /\ (seed_in_range (SEED cnf) = true ->
      exists subset st',
        data_validation.select_subset lib cnf dataset st
        = (Ok (TRAIN_SAMPLES cnf + TEST_SAMPLES cnf, subset), st'))
  /\ (seed_in_range (SEED cnf) = false ->
      fst (data_validation.select_subset lib cnf dataset st)
      = Raise seed_refused).
Proof.
  intros Hlib Hn.
  destruct (Hlib (RandomState lib (SEED cnf)) (shape0 dataset)
              (TRAIN_SAMPLES cnf + TEST_SAMPLES cnf) Hn) as [Hlen Hrange].
  destruct (take_rows_in_range (rows dataset) _ Hrange)
    as (out & Htake & Hout & Hin).
  unfold data_validation.select_subset, DataFrame_sample, bind, call, ret,
    sample_refusal, take.
  rewrite (population_accepts _ _ Hn), Htake.
  destruct (seed_in_range (SEED cnf)); cbn.
  - split; [|split; [intros _; eexists; eexists; reflexivity | discriminate]].
    intros total subset st' H. inversion H; subst; clear H.
    unfold shape0. cbn. rewrite Hout, Hlen. auto.
  - split; [intros total subset st' H; discriminate H|].
    split; [discriminate | reflexivity].
Qed.

(** With the seed -1 the demo frame of three rows gives no subset of
    three: numpy refuses the seed. *)
Example refused_seed_gives_no_subset :
  fst (data_validation.select_subset Demo.lib Strict.cnf_bad_seed Demo.frame
         (mkState Demo.w0 []))
  = Raise seed_refused.
Proof. reflexivity. Qed.

Lemma in_firstn {A : Type} (n : nat) (l : list A) (x : A) :
  In x (firstn n l) -> In x l.
Proof.
  intros H. rewrite <- (firstn_skipn n l). apply in_or_app. now left.
Qed.

Lemma demo_choice_in_range : choice_in_range Demo.lib.
Proof.
  intros g a n Hn. cbn. unfold Demo.demo_choice. cbn. split.
  - rewrite length_firstn, length_map, length_seq. lia.
  - apply Forall_forall. intros i Hi.
    apply in_firstn in Hi. apply in_map_iff in Hi as (j & <- & Hj).
    apply in_seq in Hj. apply Nat.mod_upper_bound. lia.
Qed.

Lemma subset_has_the_requested_rows_witness :
  exists subset st',
    data_validation.select_subset Demo.lib Demo.cnf Demo.frame
      (mkState Demo.w0 [])
    = (Ok (3, subset), st')
    /\ shape0 subset = 3
    /\ Forall (fun r => In r (rows Demo.frame)) (rows subset)
    /\ columns subset = columns Demo.frame.
Proof.
  assert (Hn : TRAIN_SAMPLES Demo.cnf + TEST_SAMPLES Demo.cnf
               <= shape0 Demo.frame) by (vm_compute; lia).
  destruct (subset_has_the_requested_rows Demo.lib Demo.cnf Demo.frame
              (mkState Demo.w0 []) demo_choice_in_range Hn)
    as (Hrows & Hreturns & _).
  destruct (Hreturns eq_refl) as (subset & st' & E).
  exists subset, st'. split; [exact E|].
  destruct (Hrows _ _ _ E) as (_ & Hs & Hin & Hc). auto.
Defined.

(** C10, as the code has it: two runs of the validation notebook from
    the same world (hence on the same dataset) whose configurations
    differ only in [SEED], [TRAIN_SAMPLES] or [TEST_SAMPLES], and in
    neither of which the subset selection raises, end alike: the same
    names bound by the later cells, the same console and world, the
    same calls.  The sampled subset is not read. *)
Theorem later_output_ignores_the_subset
  (lib : Library) (pf : pathfinder) (cnf1 cnf2 : configurations)
  (w : World (RngState lib)) :
  same_but_sampling cnf1 cnf2 ->
  sampling_failed
    (log (snd (run (data_validation.notebook lib pf cnf1) w))) = false ->
  sampling_failed
    (log (snd (run (data_validation.notebook lib pf cnf2) w))) = false ->
  later_output (run (data_validation.notebook lib pf cnf1) w)
  = later_output (run (data_validation.notebook lib pf cnf2) w).
Proof.
  intros (_ & Hshape & _).
  unfold later_output. unfold_cells.
  unfold data_validation.loading_message.
  rewrite Hshape. clear Hshape.
  any_run; cbn; intros; try discriminate;
    repeat match goal with
           | H : (_, _) = (_, _) |- _ => inversion H; subst; clear H
           end;
    reflexivity.
Qed.

Lemma later_output_ignores_the_subset_witness :
  later_output (run (data_validation.notebook Demo.lib Demo.pf Demo.cnf) Demo.w0)
  = later_output
      (run (data_validation.notebook Demo.lib Demo.pf Demo.cnf_small) Demo.w0).
Proof.
  apply (later_output_ignores_the_subset Demo.lib Demo.pf
           Demo.cnf Demo.cnf_small Demo.w0).
  - repeat split; reflexivity.
  - vm_compute. reflexivity.
  - vm_compute. reflexivity.
Defined.

(** C10, as stated, fails: on a dataset of three rows, asking for three
    samples prints the word list and the loading message, asking for
    four stops at the selection with a [ValueError] and prints nothing. *)
Lemma later_output_changes_with_sample_count :
  same_but_sampling Demo.cnf Demo.cnf_larger
  /\ SEED Demo.cnf = SEED Demo.cnf_larger
  /\ TRAIN_SAMPLES Demo.cnf = TRAIN_SAMPLES Demo.cnf_larger
  /\ List.length
       (console (world (snd (run (data_validation.notebook
                                    Demo.lib Demo.pf Demo.cnf) Demo.w0)))) = 2
  /\ console (world (snd (run (data_validation.notebook
                                 Demo.lib Demo.pf Demo.cnf_larger) Demo.w0)))
     = []
  /\ fst (run (data_validation.notebook Demo.lib Demo.pf Demo.cnf_larger)
            Demo.w0)
     = Raise (mkExn "ValueError"
                "Cannot take a larger sample than population when 'replace=False'")
  /\ later_output
       (run (data_validation.notebook Demo.lib Demo.pf Demo.cnf) Demo.w0)
     <> later_output
          (run (data_validation.notebook Demo.lib Demo.pf Demo.cnf_larger)
             Demo.w0).
Proof.
  split; [repeat split; reflexivity|].
  split; [reflexivity|]. split; [reflexivity|].
  split; [vm_compute; reflexivity|].
  split; [vm_compute; reflexivity|].
  split; [vm_compute; reflexivity|].
  intros H. apply (f_equal (fun r => is_ok (fst r))) in H.
  vm_compute in H. discriminate H.
Qed.

(* ================================================================= *)
(** ** What the cells leave untouched *)

Section Frame.

Context {G : Type}.

Lemma same_files_refl (w : World G) : same_files w w.
Proof. intros p. reflexivity. Qed.

Lemma same_files_trans (w1 w2 w3 : World G) :
  same_files w1 w2 -> same_files w2 w3 -> same_files w1 w3.
Proof. intros H12 H23 p. now rewrite H23, H12. Qed.

Lemma keeps_ret {A} (a : A) : cell_keeps_files (@ret (World G) A a).
Proof. intros st. apply same_files_refl. Qed.

Lemma keeps_lift {A} (r : Result A) : cell_keeps_files (@lift (World G) A r).
Proof. intros st. destruct r; apply same_files_refl. Qed.

Lemma keeps_call {A} (c : Callee) (f : Ext (World G) A) :
  keeps_files f -> cell_keeps_files (call c f).
Proof.
  intros Hf st. unfold call. specialize (Hf (world st)).
  destruct (f (world st)) as [r w']. exact Hf.
Qed.

Lemma keeps_bind {A B} (m : M (World G) A) (k : A -> M (World G) B) :
  cell_keeps_files m -> (forall a, cell_keeps_files (k a)) ->
  cell_keeps_files (bind m k).
Proof.
  intros Hm Hk st. unfold bind. specialize (Hm st).
  destruct (m st) as [[a|e] st1]; cbn in *.
  - exact (same_files_trans _ _ _ Hm (Hk a st1)).
  - exact Hm.
Qed.

End Frame.

Section FrameOfCalls.

Variable lib : Library.

Lemma keeps_print (o : Printed) : cell_keeps_files (print lib o).
Proof. apply keeps_call. intros w p. reflexivity. Qed.

Lemma keeps_simplefilter (a c : string) :
  cell_keeps_files (warnings_simplefilter lib a c).
Proof. apply keeps_call. intros w p. reflexivity. Qed.

Lemma keeps_read_csv (path enc sep : string) (lm : bool) :
  cell_keeps_files (pd_read_csv lib path enc sep lm).
Proof.
  apply keeps_call. intros w p.
  destruct (files w path); reflexivity.
Qed.

Lemma keeps_sample (df : DataFrame) (n : nat) (rs : option Z) :
  cell_keeps_files (DataFrame_sample lib df n rs).
Proof.
  apply keeps_call. intros w p.
  destruct (sample_refusal (shape0 df) n rs); [reflexivity|].
  destruct rs; [reflexivity|].
  destruct (choice lib (np_random w) (shape0 df) n). reflexivity.
Qed.

Lemma keeps_to_list (df : DataFrame) (name : string) :
  cell_keeps_files (to_list lib df name).
Proof. apply keeps_call. intros w p. reflexivity. Qed.

End FrameOfCalls.

(** One step of a frame proof: a bind, a call of the notebooks' own, a
    collaborator's call under [writes_nothing], or a pattern to open. *)
Ltac frame_step Hlib :=
  first
    [ apply keeps_ret
    | apply keeps_lift
    | apply keeps_print
    | apply keeps_simplefilter
    | apply keeps_read_csv
    | apply keeps_sample
    | apply keeps_to_list
    | apply keeps_call; solve [ apply Hlib ]
    | apply keeps_bind; [ | intros ? ]
    | match goal with
      | |- cell_keeps_files (match ?x with _ => _ end) => destruct x
      end ].

Lemma validation_keeps_files (lib : Library) (pf : pathfinder)
  (cnf : configurations) :
  writes_nothing lib ->
  cell_keeps_files (data_validation.notebook lib pf cnf).
Proof.
  intros Hlib.
  unfold data_validation.notebook, data_validation.cell_imports,
    data_validation.load_dataset, data_validation.after_load,
    data_validation.select_subset, data_validation.text_analysis,
    data_validation.pixel_intensity_histogram.
  repeat frame_step Hlib.
Qed.

Lemma evaluation_keeps_files (lib : Library) (pf : pathfinder)
  (cnf : configurations) :
  writes_nothing lib ->
  cell_keeps_files (model_evaluation.notebook lib pf cnf).
Proof.
  intros Hlib.
  unfold model_evaluation.notebook, model_evaluation.cell_imports,
    model_evaluation.load_data_and_model,
    model_evaluation.create_generator_and_datasets,
    model_evaluation.model_evaluation_cell.
  repeat frame_step Hlib.
Qed.

(** C7: with collaborators that write no file, a run of either notebook
    leaves every file as it was: what changes is the console (and the
    state inside the process).  The pixel-intensity cell calls nothing
    but the [DataValidation] constructor and [print]: when it completes,
    the world is the one the constructor left with the loading message
    printed once; no image is loaded and no histogram is computed. *)
Theorem notebooks_write_no_file
  (lib : Library) (pf : pathfinder) (cnf : configurations)
  (w : World (RngState lib)) :
  writes_nothing lib ->
  same_files w (world (snd (run (data_validation.notebook lib pf cnf) w)))
  /\ same_files w (world (snd (run (model_evaluation.notebook lib pf cnf) w)))
  /\ forall st : State (World (RngState lib)),
       exists evs,
         log (snd (data_validation.pixel_intensity_histogram lib cnf st))
         = (log st ++ evs)%list
         /\ forallb validator_or_print evs = true
         /\ forall v,
              fst (data_validation.pixel_intensity_histogram lib cnf st) = Ok v ->
              exists wv,
                DataValidation_init lib (world st) = (Ok v, wv)
                /\ world (snd (data_validation.pixel_intensity_histogram
                                 lib cnf st))
                   = echo (PStr (data_validation.loading_message cnf)) wv.
Proof.
  intros Hlib.
  split; [exact (validation_keeps_files lib pf cnf Hlib (mkState w []))|].
  split; [exact (evaluation_keeps_files lib pf cnf Hlib (mkState w []))|].
  intros st.
  unfold data_validation.pixel_intensity_histogram, print, bind, call, ret.
  destruct (DataValidation_init lib (world st)) as [[v|e] wv]; cbn.
  - eexists. split; [rewrite <- app_assoc; reflexivity|].
    split; [reflexivity|].
    intros v' Hv. inversion Hv; subst. eexists. split; reflexivity.
  - eexists. split; [reflexivity|].
    split; [reflexivity|]. intros v' Hv. discriminate Hv.
Qed.

Lemma demo_writes_nothing : writes_nothing Demo.lib.
Proof. constructor; intros; intros w q; reflexivity. Qed.

Lemma notebooks_write_no_file_witness :
  same_files Demo.w0
    (world (snd (run (data_validation.notebook Demo.lib Demo.pf Demo.cnf)
                   Demo.w0)))
  /\ same_files Demo.w0
       (world (snd (run (model_evaluation.notebook Demo.lib Demo.pf Demo.cnf)
                      Demo.w0)))
  /\ console
       (world (snd (data_validation.pixel_intensity_histogram Demo.lib Demo.cnf
                      (mkState Demo.w0 []))))
     = [PStr (LF ++ "Loading pictures from train and test dataset. "
                 ++ "Current picture shape is (224, 224)" ++ LF)].
Proof.
  destruct (notebooks_write_no_file Demo.lib Demo.pf Demo.cnf Demo.w0
              demo_writes_nothing) as (Hv & He & _).
  split; [exact Hv|]. split; [exact He|]. reflexivity.
Defined.

(* ================================================================= *)
(** ** Failures *)

Section Faithful.

Context {W : Type}.

Lemma faithful_ret {A} (a : A) : faithful (@ret W A a).
Proof. intros st Hq. left. exact Hq. Qed.

Lemma faithful_lift {A} (r : Result A) : faithful (@lift W A r).
Proof. intros st Hq. left. destruct r; exact Hq. Qed.

Lemma faithful_call {A} (c : Callee) (f : Ext W A) : faithful (call c f).
Proof.
  intros st Hq. unfold call.
  destruct (f (world st)) as [[a|e] w']; cbn.
  - left. apply Forall_app. split; [exact Hq|].
    constructor; [reflexivity|constructor].
  - right. exists (log st), c, e. auto.
Qed.

Lemma faithful_bind {A B} (m : M W A) (k : A -> M W B) :
  faithful m -> (forall a, faithful (k a)) -> faithful (bind m k).
Proof.
  intros Hm Hk st Hq. unfold bind. specialize (Hm st Hq).
  destruct (m st) as [[a|e] st1]; cbn in *.
  - destruct Hm as [Hq1|(l & c & e & _ & _ & Habs)]; [|discriminate Habs].
    exact (Hk a st1 Hq1).
  - destruct Hm as [Hq1|(l & c & e' & Hl & Hlog & Hr)]; [left; exact Hq1|].
    right. exists l, c, e'. inversion Hr; subst. auto.
Qed.

End Faithful.

Ltac faithful_step :=
  first
    [ apply faithful_ret
    | apply faithful_lift
    | apply faithful_call
    | apply faithful_bind; [ | intros ? ]
    | match goal with
      | |- faithful (match ?x with _ => _ end) => destruct x
      end ].

Lemma validation_faithful (lib : Library) (pf : pathfinder)
  (cnf : configurations) :
  faithful (data_validation.notebook lib pf cnf).
Proof.
  unfold data_validation.notebook, data_validation.cell_imports,
    data_validation.load_dataset, data_validation.after_load,
    data_validation.select_subset, data_validation.text_analysis,
    data_validation.pixel_intensity_histogram,
    warnings_simplefilter, print, pd_read_csv, DataFrame_sample, to_list.
  repeat faithful_step.
Qed.

Lemma evaluation_faithful (lib : Library) (pf : pathfinder)
  (cnf : configurations) :
  faithful (model_evaluation.notebook lib pf cnf).
Proof.
  unfold model_evaluation.notebook, model_evaluation.cell_imports,
    model_evaluation.load_data_and_model,
    model_evaluation.create_generator_and_datasets,
    model_evaluation.model_evaluation_cell,
    warnings_simplefilter, print, pd_read_csv.
  repeat faithful_step.
Qed.

(** A failed call in the log of a faithful run is the last call, and
    the run raised what it raised. *)
Lemma faithful_run {W A : Type} (m : M W A) (w : W) (c : Callee) (e : Exn) :
  faithful m ->
  In (mkEvent c (Some e)) (log (snd (run m w))) ->
  fst (run m w) = Raise e
  /\ exists l,
       Forall quiet l /\ log (snd (run m w)) = (l ++ [mkEvent c (Some e)])%list.
Proof.
  intros Hm Hin. unfold run in *.
  destruct (Hm (mkState w []) (Forall_nil _)) as [Hq|(l & c' & e' & Hl & Hlog & Hr)].
  - rewrite Forall_forall in Hq. specialize (Hq _ Hin). discriminate Hq.
  - rewrite Hlog in Hin. apply in_app_or in Hin as [Hin|[Heq|[]]].
    + rewrite Forall_forall in Hl. specialize (Hl _ Hin). discriminate Hl.
    + inversion Heq; subst. split; [exact Hr|]. exists l. auto.
Qed.

(** C8: in a run of either notebook, a file read or a library call
    that raises is the last call made, and the run raises that same
    exception: nothing is caught, retried, replaced or recovered from. *)
Theorem library_failures_reach_the_caller_unchanged
  (lib : Library) (pf : pathfinder) (cnf : configurations)
  (w : World (RngState lib)) (c : Callee) (e : Exn) :
  (In (mkEvent c (Some e))
      (log (snd (run (data_validation.notebook lib pf cnf) w))) ->
   fst (run (data_validation.notebook lib pf cnf) w) = Raise e
   /\ exists l,
        Forall quiet l
        /\ log (snd (run (data_validation.notebook lib pf cnf) w))
           = (l ++ [mkEvent c (Some e)])%list)
  /\
  (In (mkEvent c (Some e))
      (log (snd (run (model_evaluation.notebook lib pf cnf) w))) ->
   fst (run (model_evaluation.notebook lib pf cnf) w) = Raise e
   /\ exists l,
        Forall quiet l
        /\ log (snd (run (model_evaluation.notebook lib pf cnf) w))
           = (l ++ [mkEvent c (Some e)])%list).
Proof.
  split; apply faithful_run.
  - apply validation_faithful.
  - apply evaluation_faithful.
Qed.

Lemma library_failures_witness :
  fst (run (data_validation.notebook Demo.lib Demo.pf Demo.cnf_larger) Demo.w0)
  = Raise (mkExn "ValueError"
             "Cannot take a larger sample than population when 'replace=False'")
  /\ fst (run (model_evaluation.notebook Demo.lib Demo.pf Demo.cnf) Demo.w1)
     = Raise (mkExn "FileNotFoundError"
                "checkpoints/run/preprocessing/XREP_train.csv").
Proof.
  split.
  - destruct (library_failures_reach_the_caller_unchanged
                Demo.lib Demo.pf Demo.cnf_larger Demo.w0 c_sample
                (mkExn "ValueError"
                   "Cannot take a larger sample than population when 'replace=False'"))
      as [Hv _].
    destruct Hv as [Hr _]; [|exact Hr].
    vm_compute. right. right. right. left. reflexivity.
  - destruct (library_failures_reach_the_caller_unchanged
                Demo.lib Demo.pf Demo.cnf Demo.w1
                (c_read_csv "checkpoints/run/preprocessing/XREP_train.csv"
                   "utf-8" ";")
                (mkExn "FileNotFoundError"
                   "checkpoints/run/preprocessing/XREP_train.csv"))
      as [_ He].
    destruct He as [Hr _]; [|exact Hr].
    vm_compute. do 4 right. left. reflexivity.
Defined.

(* ================================================================= *)
(** ** The CSV files read *)

Lemma comprehension_split_ok (texts : list Cell) (out : list (list string)) :
  comprehension split_method texts = Ok out -> forallb is_text texts = true.
Proof.
  revert out. induction texts as [|c texts IH]; simpl; intros out H.
  - reflexivity.
  - destruct c; simpl in H; try discriminate H.
    destruct (comprehension split_method texts) as [ys|e] eqn:E;
      [|discriminate H].
    simpl. exact (IH _ eq_refl).
Qed.







(* ================================================================= *)
(** ** The words of the text analysis *)

Section Words.

Local Open Scope string_scope.

Lemma append_nil_r (s : string) : s ++ EmptyString = s.
Proof. induction s as [|c s IH]; simpl; [reflexivity | now rewrite IH]. Qed.

Lemma append_assoc (a b c : string) : (a ++ b) ++ c = a ++ b ++ c.
Proof. induction a as [|x a IH]; simpl; [reflexivity | now rewrite IH]. Qed.

Lemma length_append (a b : string) :
  String.length (a ++ b) = String.length a + String.length b.
Proof. induction a as [|x a IH]; simpl; [reflexivity | now rewrite IH]. Qed.

Lemma no_space_snoc (cur : string) (c : ascii) :
  no_space (snoc cur c) = no_space cur && negb (isspace c).
Proof.
  unfold snoc. induction cur as [|x cur IH]; simpl.
  - now rewrite andb_true_r.
  - rewrite IH. now rewrite andb_assoc.
Qed.

Lemma snoc_not_empty (cur : string) (c : ascii) : snoc cur c <> EmptyString.
Proof. destruct cur; discriminate. Qed.

Lemma flush_app (cur : string) (k k' : list string) :
  flush cur (k ++ k')%list = (flush cur k ++ k')%list.
Proof. destruct cur; reflexivity. Qed.

Lemma split_from_words (s cur : string) :
  no_space cur = true -> forallb is_word (split_from cur s) = true.
Proof.
  revert cur. induction s as [|c s IH]; intros cur Hcur; simpl.
  - destruct cur; [reflexivity|]. simpl. simpl in Hcur. now rewrite Hcur.
  - destruct (isspace c) eqn:Hc.
    + destruct cur as [|x cur]; simpl; [now apply IH|].
      simpl in Hcur. rewrite Hcur. now apply IH.
    + apply IH. rewrite no_space_snoc, Hcur, Hc. reflexivity.
Qed.

Lemma split_from_blank (s cur : string) :
  split_from cur s = [] <-> cur = EmptyString /\ all_space s = true.
Proof.
  revert cur. induction s as [|c s IH]; intros cur; simpl.
  - destruct cur; simpl; split; try tauto; try discriminate.
    intros [H _]. discriminate H.
  - destruct (isspace c) eqn:Hc; simpl.
    + destruct cur as [|x cur]; simpl.
      * rewrite IH. tauto.
      * split; [discriminate | intros [H _]; discriminate H].
    + rewrite IH. split; [intros [H _] | intros [_ H]; discriminate H].
      exfalso. exact (snoc_not_empty _ _ H).
Qed.

Lemma split_from_at_space (a b cur : string) (c : ascii) :
  isspace c = true ->
  split_from cur (a ++ String c b)
  = (split_from cur a ++ split_from EmptyString b)%list.
Proof.
  intros Hc. revert cur. induction a as [|x a IH]; intros cur; simpl.
  - rewrite Hc. now rewrite <- flush_app.
  - destruct (isspace x); [|apply IH].
    rewrite IH. apply flush_app.
Qed.

Lemma split_join_blank (l : list string) :
  str_split (join_blank l) = List.concat (map str_split l).
Proof.
  unfold str_split.
  induction l as [|x l IH]; [reflexivity|].
  destruct l as [|y l].
  - simpl. now rewrite app_nil_r.
  - change (join_blank (x :: y :: l))
      with (x ++ String " "%char (join_blank (y :: l))).
    rewrite split_from_at_space by reflexivity.
    rewrite IH. reflexivity.
Qed.

Lemma join_split_from (s cur : string) :
  join_all (split_from cur s) = cur ++ remove_spaces s.
Proof.
  revert cur. induction s as [|c s IH]; intros cur; simpl.
  - destruct cur; simpl; [reflexivity|]. now rewrite !append_nil_r.
  - destruct (isspace c).
    + destruct cur; simpl; [apply IH|]. f_equal. f_equal. apply IH.
    + rewrite IH. unfold snoc. now rewrite append_assoc.
Qed.

Lemma remove_spaces_app (a b : string) :
  remove_spaces (a ++ b) = remove_spaces a ++ remove_spaces b.
Proof.
  induction a as [|c a IH]; simpl; [reflexivity|].
  destruct (isspace c); simpl; now rewrite IH.
Qed.

Lemma join_all_app (k k' : list string) :
  join_all (k ++ k') = join_all k ++ join_all k'.
Proof.
  unfold join_all. induction k as [|x k IH]; simpl; [reflexivity|].
  now rewrite IH, append_assoc.
Qed.

Lemma join_words_of (texts : list Cell) :
  forallb is_text texts = true ->
  join_all (List.concat (map words_of texts))
  = remove_spaces (join_all (map text_of texts)).
Proof.
  induction texts as [|c texts IH]; simpl; intros H; [reflexivity|].
  apply andb_true_iff in H as [Hc Ht].
  destruct c; try discriminate Hc. simpl.
  rewrite join_all_app, remove_spaces_app, (IH Ht).
  f_equal. apply (join_split_from s EmptyString).
Qed.

Lemma words_of_str_split (texts : list Cell) :
  forallb is_text texts = true ->
  map words_of texts = map str_split (map text_of texts).
Proof.
  induction texts as [|c texts IH]; simpl; intros H; [reflexivity|].
  apply andb_true_iff in H as [Hc Ht].
  destruct c; try discriminate Hc. simpl. now rewrite (IH Ht).
Qed.

Lemma forallb_concat {A : Type} (f : A -> bool) (ll : list (list A)) :
  forallb (forallb f) ll = true -> forallb f (List.concat ll) = true.
Proof.
  induction ll as [|l ll IH]; simpl; intros H; [reflexivity|].
  apply andb_true_iff in H as [Hl Hll].
  rewrite forallb_app, Hl. now apply IH.
Qed.

Lemma words_of_are_words (texts : list Cell) :
  forallb (forallb is_word) (map words_of texts) = true.
Proof.
  induction texts as [|c texts IH]; simpl; [reflexivity|].
  rewrite IH, andb_true_r.
  destruct c; try reflexivity. apply split_from_words. reflexivity.
Qed.

End Words.

(** What a completed text-analysis cell did. *)
Lemma text_analysis_completes (lib : Library) (dataset : DataFrame)
  (st : State (World (RngState lib))) (texts : list Cell)
  (words : list string) (st' : State (World (RngState lib))) :
  data_validation.text_analysis lib dataset st = (Ok (texts, words), st') ->
  getitem dataset "text" = Ok texts
  /\ forallb is_text texts = true
  /\ words = List.concat (map words_of texts)
  /\ world st' = echo (PList words) (world st).
Proof.
  intros H. completes H.
  inversion H; subst; clear H.
  match goal with
  | Hc : comprehension split_method _ = Ok _ |- _ =>
      pose proof (comprehension_split_ok _ _ Hc) as Ht;
      rewrite (comprehension_split _ Ht) in Hc; inversion Hc; subst
  end.
  auto.
Qed.

(** X1: every entry of the word list the text-analysis cell prints is
    a word: it is not empty and holds no whitespace character. *)
Theorem printed_words_are_words
  (lib : Library) (dataset : DataFrame) (st : State (World (RngState lib)))
  (texts : list Cell) (words : list string)
  (st' : State (World (RngState lib))) :
  data_validation.text_analysis lib dataset st = (Ok (texts, words), st') ->
  forallb is_word words = true.
Proof.
  intros H. destruct (text_analysis_completes _ _ _ _ _ _ H) as (_ & _ & -> & _).
  apply forallb_concat, words_of_are_words.
Qed.

Lemma printed_words_are_words_witness :
  exists texts words st',
    data_validation.text_analysis Demo.lib Cases.frame_with_blank
      (mkState Demo.w0 [])
    = (Ok (texts, words), st')
    /\ words = ["no"; "acute"; "findings"; "clear"; "lungs"]
    /\ forallb is_word words = true.
Proof.
  do 3 eexists. split; [vm_compute; reflexivity|].
  split; [reflexivity|].
  eapply (printed_words_are_words Demo.lib Cases.frame_with_blank
            (mkState Demo.w0 [])).
  vm_compute. reflexivity.
Defined.

(** X2: the word list of the text-analysis cell is what one split of
    all the texts joined by single blanks gives: splitting row by row
    and flattening loses and adds no word. *)
Theorem word_list_is_split_of_joined_texts
  (lib : Library) (dataset : DataFrame) (st : State (World (RngState lib)))
  (texts : list Cell) (words : list string)
  (st' : State (World (RngState lib))) :
  data_validation.text_analysis lib dataset st = (Ok (texts, words), st') ->
  words = str_split (join_blank (map text_of texts)).
Proof.
  intros H.
  destruct (text_analysis_completes _ _ _ _ _ _ H) as (_ & Ht & -> & _).
  now rewrite split_join_blank, words_of_str_split.
Qed.

Lemma word_list_is_split_of_joined_texts_witness :
  exists texts words st',
    data_validation.text_analysis Demo.lib Cases.frame_with_blank
      (mkState Demo.w0 [])
    = (Ok (texts, words), st')
    /\ words = str_split (join_blank (map text_of texts)).
Proof.
  do 3 eexists. split; [vm_compute; reflexivity|].
  eapply (word_list_is_split_of_joined_texts Demo.lib Cases.frame_with_blank
            (mkState Demo.w0 [])).
  vm_compute. reflexivity.
Defined.

(** X3: the words of the word list, put end to end, are the texts of
    the rows put end to end with the whitespace taken out: the split
    drops whitespace and nothing else, and keeps the order. *)
Theorem word_list_keeps_the_characters
  (lib : Library) (dataset : DataFrame) (st : State (World (RngState lib)))
  (texts : list Cell) (words : list string)
  (st' : State (World (RngState lib))) :
  data_validation.text_analysis lib dataset st = (Ok (texts, words), st') ->
  join_all words = remove_spaces (join_all (map text_of texts)).
Proof.
  intros H.
  destruct (text_analysis_completes _ _ _ _ _ _ H) as (_ & Ht & -> & _).
  now apply join_words_of.
Qed.

Lemma word_list_keeps_the_characters_witness :
  exists texts words st',
    data_validation.text_analysis Demo.lib Cases.frame_with_blank
      (mkState Demo.w0 [])
    = (Ok (texts, words), st')
    /\ join_all words = remove_spaces (join_all (map text_of texts)).
Proof.
  do 3 eexists. split; [vm_compute; reflexivity|].
  eapply (word_list_keeps_the_characters Demo.lib Cases.frame_with_blank
            (mkState Demo.w0 [])).
  vm_compute. reflexivity.
Defined.

(** X4: a text gives no word exactly when it is empty or nothing but
    whitespace; such a row adds nothing to the word list. *)
Theorem blank_text_gives_no_word (s : string) :
  str_split s = [] <-> all_space s = true.
Proof.
  unfold str_split. rewrite split_from_blank. tauto.
Qed.

(** X5: on a frame without a ['text'] column the text-analysis cell
    raises [KeyError('text')] at the column lookup; nothing is printed
    and the world is as before. *)
Theorem text_analysis_without_text_column
  (lib : Library) (dataset : DataFrame) (st : State (World (RngState lib))) :
  index_of "text" (columns dataset) = None ->
  data_validation.text_analysis lib dataset st
  = (Raise (mkExn "KeyError" "text"),
     mkState (world st)
       (log st ++ [mkEvent (c_getitem "text")
                     (Some (mkExn "KeyError" "text"))])).
Proof.
  intros H. unfold_cells. unfold getitem. rewrite H. reflexivity.
Qed.

Lemma text_analysis_without_text_column_witness :
  data_validation.text_analysis Demo.lib Cases.frame_without_text
    (mkState Demo.w0 [])
  = (Raise (mkExn "KeyError" "text"),
     mkState Demo.w0
       [mkEvent (c_getitem "text") (Some (mkExn "KeyError" "text"))]).
Proof.
  apply (text_analysis_without_text_column Demo.lib Cases.frame_without_text
           (mkState Demo.w0 [])).
  reflexivity.
Defined.

Lemma comprehension_split_fails (texts : list Cell) :
  forallb is_text texts = false ->
  exists e,
    comprehension split_method texts = Raise e
    /\ exn_class e = "AttributeError"%string.
Proof.
  induction texts as [|c texts IH]; simpl; intros H; [discriminate H|].
  destruct c; simpl in *.
  - destruct (IH H) as (e & -> & He). eauto.
  - eauto.
  - eauto.
Qed.

(** X6: when the ['text'] column holds a cell that is not a string (a
    missing report, read as NaN, or a number), the text-analysis cell
    raises an [AttributeError] from the split; no word list is printed,
    not even that of the rows before, and the world is as before. *)
Theorem text_analysis_with_a_missing_text
  (lib : Library) (dataset : DataFrame) (texts : list Cell)
  (st : State (World (RngState lib))) :
  getitem dataset "text" = Ok texts ->
  forallb is_text texts = false ->
  exists e,
    fst (data_validation.text_analysis lib dataset st) = Raise e
    /\ exn_class e = "AttributeError"%string
    /\ world (snd (data_validation.text_analysis lib dataset st)) = world st.
Proof.
  intros Hget Ht.
  destruct (comprehension_split_fails _ Ht) as (e & Hc & He).
  exists e. unfold_cells. rewrite Hget, Hc. auto.
Qed.

Lemma text_analysis_with_a_missing_text_witness :
  exists e,
    fst (data_validation.text_analysis Demo.lib Cases.frame_with_gap
           (mkState Demo.w0 [])) = Raise e
    /\ exn_class e = "AttributeError"%string
    /\ world (snd (data_validation.text_analysis Demo.lib Cases.frame_with_gap
                     (mkState Demo.w0 []))) = Demo.w0.
Proof.
  apply (text_analysis_with_a_missing_text Demo.lib Cases.frame_with_gap
           [CStr "no acute findings"; CNaN; CStr "clear lungs"]
           (mkState Demo.w0 [])); reflexivity.
Defined.

(* ================================================================= *)
(** ** Where a run of the validation notebook stops *)

Lemma population_refuses (a n : nat) :
  a < n ->
  population_refusal a n
  = Some (if (a =? 0)%nat then empty_population_refused
          else larger_sample_refused).
Proof.
  intros H. unfold population_refusal.
  destruct (Nat.ltb_spec a n) as [_|Hge]; [|lia].
  destruct (Nat.eqb_spec a 0) as [Ha|Ha]; [|reflexivity].
  destruct (Nat.eqb_spec n 0) as [Hn|Hn]; [lia | reflexivity].
Qed.

(** X7: when the loaded frame has fewer rows than
    [TRAIN_SAMPLES + TEST_SAMPLES], the cells after the load raise a
    [ValueError] at the selection: the selection is the only call made,
    there is no text analysis, nothing is printed and the world is as
    before.  The exception is the one for the seed when [SEED] is not
    a seed numpy accepts, else the one for an empty population when the
    frame has no row, else the one for a sample larger than the
    population. *)
Theorem oversampling_stops_the_validation_flow
  (lib : Library) (cnf : configurations) (fd : string * DataFrame)
  (st : State (World (RngState lib))) :
  shape0 (snd fd) < TRAIN_SAMPLES cnf + TEST_SAMPLES cnf ->
  exists e,
    data_validation.after_load lib cnf fd st
    = (Raise e, mkState (world st) (log st ++ [mkEvent c_sample (Some e)]))
    /\ exn_class e = "ValueError"%string
    /\ e = (if seed_in_range (SEED cnf)
            then if (shape0 (snd fd) =? 0)%nat
                 then empty_population_refused
                 else larger_sample_refused
            else seed_refused).
Proof.
  intros H. destruct fd as [file_loc dataset]. cbn [snd] in *.
  unfold_cells. unfold sample_refusal.
  rewrite (population_refuses _ _ H).
  destruct (seed_in_range (SEED cnf)).
  - destruct (shape0 dataset =? 0)%nat; eexists; repeat split.
  - eexists; repeat split.
Qed.

Lemma oversampling_stops_witness :
  exists e,
    data_validation.after_load Demo.lib Demo.cnf_larger
      ("data/XREP_dataset.csv"%string, Demo.frame) (mkState Demo.w0 [])
    = (Raise e, mkState Demo.w0 [mkEvent c_sample (Some e)])
    /\ exn_class e = "ValueError"%string
    /\ e = larger_sample_refused.
Proof.
  apply (oversampling_stops_the_validation_flow Demo.lib Demo.cnf_larger
           ("data/XREP_dataset.csv"%string, Demo.frame) (mkState Demo.w0 [])).
  vm_compute. lia.
Defined.

(** X8: when there is no file XREP_dataset.csv under [DATA_PATH], the
    validation notebook raises [FileNotFoundError] for that path at
    [read_csv]; [find_images_path] is not called, no sample is drawn
    and the console is as before. *)
Theorem missing_dataset_file_stops_the_validation_notebook
  (lib : Library) (pf : pathfinder) (cnf : configurations)
  (w : World (RngState lib)) :
  files w (os_path_join (DATA_PATH pf) "XREP_dataset.csv") = None ->
  fst (run (data_validation.notebook lib pf cnf) w)
  = Raise (mkExn "FileNotFoundError"
             (os_path_join (DATA_PATH pf) "XREP_dataset.csv"))
  /\ map callee (log (snd (run (data_validation.notebook lib pf cnf) w)))
     = [ c_simplefilter;
         c_read_csv (os_path_join (DATA_PATH pf) "XREP_dataset.csv")
           "utf-8" ";" ]
  /\ console (world (snd (run (data_validation.notebook lib pf cnf) w)))
     = console w.
Proof.
  intros H. unfold_cells. cbn [files set_filters]. rewrite H.
  repeat split.
Qed.

Lemma missing_dataset_file_witness :
  fst (run (data_validation.notebook Demo.lib Demo.pf Demo.cnf)
         Cases.empty_world)
  = Raise (mkExn "FileNotFoundError" "data/XREP_dataset.csv")
  /\ map callee
       (log (snd (run (data_validation.notebook Demo.lib Demo.pf Demo.cnf)
                    Cases.empty_world)))
     = [ c_simplefilter; c_read_csv "data/XREP_dataset.csv" "utf-8" ";" ]
  /\ console
       (world (snd (run (data_validation.notebook Demo.lib Demo.pf Demo.cnf)
                      Cases.empty_world)))
     = [].
Proof.
  apply (missing_dataset_file_stops_the_validation_notebook
           Demo.lib Demo.pf Demo.cnf Cases.empty_world).
  reflexivity.
Defined.

(* ================================================================= *)
(** ** The order of the calls *)

Lemma comprehension_split_raises (texts : list Cell) (e : Exn) :
  comprehension split_method texts = Raise e ->
  exn_class e = "AttributeError"%string.
Proof.
  induction texts as [|c texts IH]; simpl; intros H; [discriminate H|].
  destruct c; simpl in H.
  - destruct (comprehension split_method texts) as [ys|e'];
      [discriminate H|].
    inversion H; subst. now apply IH.
  - inversion H. reflexivity.
  - inversion H. reflexivity.
Qed.

Ltac all_quiet :=
  cbn; repeat (apply Forall_cons; [reflexivity|]); apply Forall_nil.

(** The log of a run that stopped at a call: what came before, and the
    call that raised. *)
Ltac last_call_raised :=
  match goal with
  | |- exists l c, log ?s = _ /\ _ =>
      exists (removelast (log s)),
             (callee (last (log s) (mkEvent c_print None)));
      split; [reflexivity | all_quiet]
  end.

(** The innermost stuck scrutinee of a run, one case after the other. *)
Ltac run_cases E :=
  repeat (unfold_cells_in E;
          match type of E with
          | context [match ?t with _ => _ end] => stuck t; destruct t eqn:?
          end).

(** X9: the calls of a run follow the order of the source.  A
    completed run has made every call site of its notebook, once each
    and in that order, and every call returned.  A run that raises has
    made the call sites up to the one that raised, each once and in
    order; that call is the last of the log and raised the exception of
    the run, and those before it returned.  The one exception that no
    call raises is the [AttributeError] of [x.split()] in the
    validation notebook: then the calls made are the first five, all
    returned, and nothing was printed. *)
Theorem calls_follow_the_order_of_the_source
  (lib : Library) (pf : pathfinder) (cnf : configurations)
  (w : World (RngState lib)) :
  match run (data_validation.notebook lib pf cnf) w with
  | (Ok _, st') =>
      map callee (log st') = validation_calls pf /\ Forall quiet (log st')
  | (Raise e, st') =>
      map callee (log st')
      = firstn (List.length (log st')) (validation_calls pf)
      /\ ((exists l c,
             log st' = (l ++ [mkEvent c (Some e)])%list /\ Forall quiet l)
          \/ (List.length (log st') = 5
              /\ Forall quiet (log st')
              /\ exn_class e = "AttributeError"%string))
  end
  /\ exists model_path,
       match run (model_evaluation.notebook lib pf cnf) w with
       | (Ok _, st') =>
           map callee (log st') = evaluation_calls model_path
           /\ Forall quiet (log st')
       | (Raise e, st') =>
           map callee (log st')
           = firstn (List.length (log st')) (evaluation_calls model_path)
           /\ exists l c,
                log st' = (l ++ [mkEvent c (Some e)])%list /\ Forall quiet l
       end.
Proof.
  split.
  - destruct (run (data_validation.notebook lib pf cnf) w) as [r st'] eqn:E.
    run_cases E; inversion E; subst; clear E;
      first
        [ split; [reflexivity | all_quiet]
        | split; [reflexivity|]; left; last_call_raised
        | split; [reflexivity|];
          right; split; [reflexivity|]; split; [all_quiet|];
          eapply comprehension_split_raises; eassumption ].
  - destruct (run (model_evaluation.notebook lib pf cnf) w) as [r st'] eqn:E.
    run_cases E; inversion E; subst; clear E;
      match goal with
      | |- context [folder_path ?l ?i] => exists (folder_path l i)
      | _ => exists EmptyString
      end;
      first
        [ split; [reflexivity | all_quiet]
        | split; [reflexivity|]; last_call_raised ].
Qed.

(** X10: the evaluation notebook prints its summary exactly when the
    run completes, and then once: a run that raises anywhere has made
    no [print] call, so there is no partial report. *)
Theorem summary_is_printed_iff_the_run_completes
  (lib : Library) (pf : pathfinder) (cnf : configurations)
  (w : World (RngState lib)) :
  filter is_print (log (snd (run (model_evaluation.notebook lib pf cnf) w)))
  = if is_ok (fst (run (model_evaluation.notebook lib pf cnf) w))
    then [mkEvent c_print None] else [].
Proof.
  destruct (run (model_evaluation.notebook lib pf cnf) w) as [r st'] eqn:E.
  cbn [fst snd].
  repeat (unfold_cells_in E;
          match type of E with
          | context [match ?t with _ => _ end] => stuck t; destruct t eqn:?
          end);
    inversion E; subst; reflexivity.
Qed.

(* ================================================================= *)
(** ** The report and the files of the evaluation notebook *)

(** X11: two evaluation reports are the same text exactly when they
    were made from the same four numbers: the report shows the two row
    counts, the batch size and the epoch count without loss. *)
Theorem reports_agree_iff_their_numbers_agree
  (c1 c2 : configurations) (n1 m1 n2 m2 : nat) :
  model_evaluation.evaluation_report c1 n1 m1
  = model_evaluation.evaluation_report c2 n2 m2
  <-> n1 = n2 /\ m1 = m2
      /\ BATCH_SIZE c1 = BATCH_SIZE c2 /\ EPOCHS c1 = EPOCHS c2.
Proof.
  split.
  - intros H.
    pose proof (report_fields c1 n1 m1) as F1.
    pose proof (report_fields c2 n2 m2) as F2.
    cbv zeta in F1, F2. rewrite H in F1.
    destruct F1 as (A1 & B1 & C1 & D1), F2 as (A2 & B2 & C2 & D2).
    repeat split; congruence.
  - intros (-> & -> & Hb & He). now apply evaluation_report_ext.
Qed.

Lemma train_and_test_paths_differ (folder : string) :
  os_path_join folder "XREP_train.csv" <> os_path_join folder "XREP_test.csv".
Proof.
  intros H. apply (f_equal String.length) in H.
  unfold os_path_join in H.
  destruct folder as [|x a]; [discriminate H|].
  destruct (endswith_slash (String x a));
    rewrite ?length_append in H; simpl in H; lia.
Qed.

(** X12: in a completed run of the evaluation notebook the train frame
    and the test frame are read from two different paths, whatever the
    folder of the checkpoint is. *)
Theorem train_and_test_frames_come_from_different_files
  (lib : Library) (pf : pathfinder) (cnf : configurations)
  (w : World (RngState lib))
  (ns : model_evaluation.Namespace lib) (st' : State (World (RngState lib))) :
  run (model_evaluation.notebook lib pf cnf) w = (Ok ns, st') ->
  exists p q,
    map callee (csv_reads (log st'))
    = [c_read_csv p "utf-8" ";"; c_read_csv q "utf-8" ";"]
    /\ p <> q.
Proof.
  intros H.
  destruct (evaluation_completes _ _ _ _ _ _ H) as (_ & _ & _ & _ & Hr & _).
  rewrite Hr. cbn. do 2 eexists. split; [reflexivity|].
  apply train_and_test_paths_differ.
Qed.

Lemma train_and_test_frames_witness :
  exists p q,
    map callee
      (csv_reads
         (log (snd (run (model_evaluation.notebook Demo.lib Demo.pf Demo.cnf)
                      Demo.w0))))
    = [c_read_csv p "utf-8" ";"; c_read_csv q "utf-8" ";"]
    /\ p <> q.
Proof.
  eapply (train_and_test_frames_come_from_different_files
            Demo.lib Demo.pf Demo.cnf Demo.w0).
  vm_compute. reflexivity.
Defined.

(* ================================================================= *)
(** ** More on the subset *)

(** X13: drawing the subset touches nothing: the world after the
    selection is the world before it (numpy's global generator is not
    advanced, nothing is printed), and the selection is one call. *)
Theorem subset_selection_leaves_the_world
  (lib : Library) (cnf : configurations) (dataset : DataFrame)
  (st : State (World (RngState lib))) :
  world (snd (data_validation.select_subset lib cnf dataset st)) = world st
  /\ exists o,
       log (snd (data_validation.select_subset lib cnf dataset st))
       = (log st ++ [mkEvent c_sample o])%list.
Proof.
  unfold_cells.
  destruct (sample_refusal (shape0 dataset)
              (TRAIN_SAMPLES cnf + TEST_SAMPLES cnf) (Some (SEED cnf))).
  - split; [reflexivity | eexists; reflexivity].
  - destruct (choice lib (RandomState lib (SEED cnf)) (shape0 dataset)
                (TRAIN_SAMPLES cnf + TEST_SAMPLES cnf)) as [locs g].
    destruct (take dataset locs);
      (split; [reflexivity | eexists; reflexivity]).
Qed.

Lemma take_rows_lookup (rs : list Row) (locs : list nat) (out : list Row) :
  take_rows rs locs = Ok out -> map Some out = map (nth_error rs) locs.
Proof.
  revert out. induction locs as [|i locs IH]; simpl; intros out H.
  - inversion H. reflexivity.
  - destruct (nth_error rs i) as [r|] eqn:E; [|discriminate H].
    destruct (take_rows rs locs) as [out'|e]; [|discriminate H].
    inversion H; subst. simpl. now rewrite (IH _ eq_refl).
Qed.

Lemma take_rows_in_bounds (rs : list Row) (locs : list nat) (out : list Row) :
  take_rows rs locs = Ok out -> Forall (fun i => i < List.length rs) locs.
Proof.
  revert out. induction locs as [|i locs IH]; simpl; intros out H.
  - constructor.
  - destruct (nth_error rs i) as [r|] eqn:E; [|discriminate H].
    destruct (take_rows rs locs) as [out'|e]; [|discriminate H].
    constructor; [|exact (IH _ eq_refl)].
    apply nth_error_Some. rewrite E. discriminate.
Qed.

Lemma map_nth_error_seq {A : Type} (l : list A) :
  map (nth_error l) (seq 0 (List.length l)) = map Some l.
Proof.
  induction l as [|x l IH]; simpl; [reflexivity|].
  f_equal. rewrite <- seq_shift, map_map. exact IH.
Qed.

Lemma map_Some_inj {A : Type} (l l' : list A) :
  map Some l = map Some l' -> l = l'.
Proof.
  revert l'. induction l as [|x l IH]; intros [|y l'] H;
    try discriminate H; [reflexivity|].
  inversion H. f_equal. now apply IH.
Qed.

(** What a returned selection is: the rows of the frame at the
    positions the seeded generator chose. *)
Lemma select_subset_returns (lib : Library) (cnf : configurations)
  (dataset : DataFrame) (st : State (World (RngState lib)))
  (total : nat) (subset : DataFrame) (st' : State (World (RngState lib))) :
  data_validation.select_subset lib cnf dataset st = (Ok (total, subset), st') ->
  take_rows (rows dataset)
    (fst (choice lib (RandomState lib (SEED cnf)) (shape0 dataset)
            (TRAIN_SAMPLES cnf + TEST_SAMPLES cnf)))
  = Ok (rows subset).
Proof.
  unfold data_validation.select_subset, DataFrame_sample, bind, call, ret.
  destruct (sample_refusal (shape0 dataset)
              (TRAIN_SAMPLES cnf + TEST_SAMPLES cnf) (Some (SEED cnf)));
    [discriminate|].
  unfold take.
  destruct (take_rows (rows dataset) _) as [rs|e]; [|discriminate].
  intros H. inversion H. reflexivity.
Qed.

(** X14: with a generator that chooses no position twice (numpy's draw
    without replacement), a returned subset holds no row of the frame
    twice: when the index labels of the frame are distinct, so are
    those of the subset. *)
Theorem subset_takes_no_row_twice
  (lib : Library) (cnf : configurations) (dataset : DataFrame)
  (st : State (World (RngState lib)))
  (total : nat) (subset : DataFrame) (st' : State (World (RngState lib))) :
  choice_distinct lib ->
  NoDup (map label (rows dataset)) ->
  data_validation.select_subset lib cnf dataset st = (Ok (total, subset), st') ->
  NoDup (map label (rows subset)).
Proof.
  intros Hdist Hlabels H.
  apply select_subset_returns in H.
  set (locs := fst (choice lib (RandomState lib (SEED cnf)) (shape0 dataset)
                      (TRAIN_SAMPLES cnf + TEST_SAMPLES cnf))) in *.
  pose proof (take_rows_in_bounds _ _ _ H) as Hb.
  apply take_rows_lookup in H.
  apply (f_equal (map (option_map label))) in H.
  rewrite !map_map in H. cbn [option_map] in H.
  rewrite <- (map_map label Some) in H.
  apply (NoDup_map_inv Some). rewrite H.
  apply NoDup_map_NoDup_ForallPairs; [|apply Hdist].
  intros i j Hi Hj Hij.
  rewrite <- !nth_error_map in Hij.
  rewrite Forall_forall in Hb.
  apply (proj1 (NoDup_nth_error (map label (rows dataset))) Hlabels i j);
    [rewrite length_map; now apply Hb | exact Hij].
Qed.

(** X15: with a generator that keeps both promises of numpy, asking for
    as many samples as the frame has rows and getting a subset gives a
    shuffle of the frame: the rows of the subset are the rows of the
    frame in some order. *)
Theorem full_sample_is_a_shuffle
  (lib : Library) (cnf : configurations) (dataset : DataFrame)
  (st : State (World (RngState lib)))
  (total : nat) (subset : DataFrame) (st' : State (World (RngState lib))) :
  choice_in_range lib ->
  choice_distinct lib ->
  TRAIN_SAMPLES cnf + TEST_SAMPLES cnf = shape0 dataset ->
  data_validation.select_subset lib cnf dataset st = (Ok (total, subset), st') ->
  Permutation (rows dataset) (rows subset).
Proof.
  intros Hrange Hdist Hn H.
  apply select_subset_returns in H. rewrite Hn in H.
  destruct (Hrange (RandomState lib (SEED cnf)) (shape0 dataset)
              (shape0 dataset) (le_n _)) as [Hlen Hin].
  specialize (Hdist (RandomState lib (SEED cnf)) (shape0 dataset)
                (shape0 dataset)).
  set (locs := fst (choice lib (RandomState lib (SEED cnf)) (shape0 dataset)
                      (shape0 dataset))) in *.
  assert (Hperm : Permutation locs (seq 0 (shape0 dataset))).
  { apply NoDup_Permutation_bis; [exact Hdist | |].
    - rewrite length_seq, Hlen. apply le_n.
    - intros i Hi. apply in_seq. rewrite Forall_forall in Hin.
      specialize (Hin i Hi). lia. }
  apply take_rows_lookup in H.
  apply (Permutation_map (nth_error (rows dataset))) in Hperm.
  rewrite <- H in Hperm. unfold shape0 in Hperm.
  rewrite map_nth_error_seq in Hperm.
  apply Permutation_sym in Hperm.
  apply Permutation_map_inv in Hperm as (l3 & Heq & Hp).
  apply map_Some_inj in Heq. subst l3. exact (Permutation_sym Hp).
Qed.

Lemma NoDup_firstn {A : Type} (n : nat) (l : list A) :
  NoDup l -> NoDup (firstn n l).
Proof.
  intros H. rewrite <- (firstn_skipn n l) in H.
  exact (NoDup_app_remove_r _ _ H).
Qed.

Lemma demo_choice_distinct : choice_distinct Demo.lib.
Proof.
  intros g a n. cbn. apply NoDup_firstn.
  apply NoDup_map_NoDup_ForallPairs; [|apply seq_NoDup].
  intros i j Hi Hj Hij. apply in_seq in Hi, Hj.
  pose proof (Nat.div_mod_eq (i + g) a) as Ei.
  pose proof (Nat.div_mod_eq (j + g) a) as Ej.
  rewrite Hij in Ei.
  assert (Hq : (i + g) / a = (j + g) / a) by nia.
  rewrite Hq in Ei. lia.
Qed.

Lemma subset_takes_no_row_twice_witness :
  exists total subset st',
    data_validation.select_subset Demo.lib Demo.cnf_small Demo.frame
      (mkState Demo.w0 [])
    = (Ok (total, subset), st')
    /\ map label (rows subset) = [1; 2]
    /\ NoDup (map label (rows subset)).
Proof.
  do 3 eexists. split; [vm_compute; reflexivity|].
  split; [reflexivity|].
  eapply (subset_takes_no_row_twice Demo.lib Demo.cnf_small Demo.frame
            (mkState Demo.w0 []) _ _ _ demo_choice_distinct).
  - vm_compute. repeat constructor; simpl; intuition discriminate.
  - vm_compute. reflexivity.
Defined.

Lemma full_sample_is_a_shuffle_witness :
  exists total subset st',
    data_validation.select_subset Demo.lib Demo.cnf Demo.frame
      (mkState Demo.w0 [])
    = (Ok (total, subset), st')
    /\ map label (rows subset) = [2; 0; 1]
    /\ Permutation (rows Demo.frame) (rows subset).
Proof.
  do 3 eexists. split; [vm_compute; reflexivity|].
  split; [reflexivity|].
  eapply (full_sample_is_a_shuffle Demo.lib Demo.cnf Demo.frame
            (mkState Demo.w0 []) _ _ _
            demo_choice_in_range demo_choice_distinct).
  - reflexivity.
  - vm_compute. reflexivity.
Defined.

(* ================================================================= *)
(** ** The first cell *)

Lemma filter_twice {A : Type} (f : A -> bool) (l : list A) :
  filter f (filter f l) = filter f l.
Proof.
  induction l as [|x l IH]; simpl; [reflexivity|].
  destruct (f x) eqn:E; simpl; [rewrite E; now f_equal | exact IH].
Qed.

(** X16: running the first cell of either notebook a second time
    changes nothing: the warnings filter it sets is already at the
    front of the filter list and is not added again. *)
Theorem rerunning_the_first_cell_changes_nothing
  (lib : Library) (st : State (World (RngState lib))) :
  world (snd (bind (data_validation.cell_imports lib)
                (fun _ => data_validation.cell_imports lib) st))
  = world (snd (data_validation.cell_imports lib st))
  /\ world (snd (bind (model_evaluation.cell_imports lib)
                   (fun _ => model_evaluation.cell_imports lib) st))
     = world (snd (model_evaluation.cell_imports lib st)).
Proof.
  split; unfold_cells; unfold set_filters; cbn;
    now rewrite filter_twice.
Qed.

(* ================================================================= *)
(** ** What of the configuration a notebook reads *)

(** X17: a run of the validation notebook depends on the configuration
    only through [SEED], the sum [TRAIN_SAMPLES + TEST_SAMPLES] and
    [IMG_SHAPE] without its last entry: two configurations that agree
    on these three give the same result, world and log.  How the total
    is split, the channel count, batch size, epochs, device and
    augmentation flag play no part. *)
Theorem validation_reads_three_settings
  (lib : Library) (pf : pathfinder) (c1 c2 : configurations)
  (w : World (RngState lib)) :
  SEED c1 = SEED c2 ->
  TRAIN_SAMPLES c1 + TEST_SAMPLES c1 = TRAIN_SAMPLES c2 + TEST_SAMPLES c2 ->
  removelast (IMG_SHAPE c1) = removelast (IMG_SHAPE c2) ->
  run (data_validation.notebook lib pf c1) w
  = run (data_validation.notebook lib pf c2) w.
Proof.
  intros Hseed Htotal Hshape.
  unfold run, data_validation.notebook, data_validation.after_load,
    data_validation.select_subset, data_validation.pixel_intensity_histogram,
    data_validation.loading_message.
  now rewrite Hseed, Htotal, Hshape.
Qed.

Lemma validation_reads_three_settings_witness :
  run (data_validation.notebook Demo.lib Demo.pf Demo.cnf) Demo.w0
  = run (data_validation.notebook Demo.lib Demo.pf Cases.cnf_other) Demo.w0.
Proof.
  apply (validation_reads_three_settings Demo.lib Demo.pf
           Demo.cnf Cases.cnf_other Demo.w0); reflexivity.
Defined.

(** X18: a run of the evaluation notebook does not depend on [SEED],
    [TRAIN_SAMPLES] or [TEST_SAMPLES]: two configurations that agree
    on everything else give the same result, world and log. *)
Theorem evaluation_ignores_the_sampling_settings
  (lib : Library) (pf : pathfinder) (c1 c2 : configurations)
  (w : World (RngState lib)) :
  same_but_sampling c1 c2 ->
  run (model_evaluation.notebook lib pf c1) w
  = run (model_evaluation.notebook lib pf c2) w.
Proof.
  intros (Hseed & Hshape & Haug & Hbatch & Hepochs & Hdev).
  unfold run, model_evaluation.notebook, model_evaluation.load_data_and_model,
    model_evaluation.create_generator_and_datasets,
    model_evaluation.model_evaluation_cell,
    model_evaluation.evaluation_report.
  now rewrite Hseed, Hshape, Haug, Hbatch, Hepochs, Hdev.
Qed.

Lemma evaluation_ignores_the_sampling_settings_witness :
  run (model_evaluation.notebook Demo.lib Demo.pf Demo.cnf) Demo.w0
  = run (model_evaluation.notebook Demo.lib Demo.pf Demo.cnf_small) Demo.w0.
Proof.
  apply (evaluation_ignores_the_sampling_settings Demo.lib Demo.pf
           Demo.cnf Demo.cnf_small Demo.w0).
  repeat split; reflexivity.
Defined.
